(** * MaxSec: risk scoring and policy enforcement

  A shallow embedding of [analyzer/risk_analyzer.py] and
  [controller/enforcement.py].

  Conventions of the embedding.
  - A Python [float] is an exact rational ([Q]); a Python [int] is [Z].
    The constants of the two modules are short decimals and are taken at
    their decimal value; the rounding of binary floating point is not
    modelled.  Where a not-a-number changes what the code does - the
    thresholds of the rule table, which [sorted] compares, and the score
    handed to the controller - a float is a rational or [NaN]
    ([float_nan]); infinities, which compare like numbers, are not
    represented.
  - A [str] is a [string] of 8-bit characters; [lower] and [strip] act on
    the ASCII range as Python does and leave other characters alone.
  - [process_data] is a dictionary read only through [.get]; it is a
    record of optional fields, [None] standing for an absent key.
  - The controller mutates [self.execution_log] and talks to the
    operating system through [subprocess.run]; both are threaded through
    a small state monad, the operating system being an oracle. *)

From Stdlib Require Import QArith Qminmax ZArith String Ascii List Bool Lia Lqa.
From Stdlib Require Import DecimalString Sorted Permutation.
Import ListNotations.

Local Open Scope string_scope.

(** ** Python built-ins used by the two modules *)

Module Py.

Definition float := Q.

Definition Qltb (x y : Q) : bool :=
  match Qcompare x y with Lt => true | _ => false end.

Definition Qleb (x y : Q) : bool :=
  match Qcompare x y with Gt => false | _ => true end.

(** [min(a, b)] and [max(a, b)]: the first argument wins a tie. *)
Definition min (a b : Q) : Q := if Qltb b a then b else a.
Definition max (a b : Q) : Q := if Qltb a b then b else a.

Definition of_int (z : Z) : Q := inject_Z z.

(** [d.get(key, default)] on an optional field. *)
Definition get {A} (field : option A) (default : A) : A :=
  match field with Some v => v | None => default end.

Definition is_upper (c : ascii) : bool :=
  (65 <=? nat_of_ascii c)%nat && (nat_of_ascii c <=? 90)%nat.

Definition lower_char (c : ascii) : ascii :=
  if is_upper c then ascii_of_nat (nat_of_ascii c + 32) else c.

Fixpoint lower (s : string) : string :=
  match s with
  | EmptyString => EmptyString
  | String c s' => String (lower_char c) (lower s')
  end.

(** [sub in s] *)
Fixpoint contains (sub s : string) : bool :=
  String.prefix sub s ||
  match s with
  | EmptyString => false
  | String _ s' => contains sub s'
  end.

(** [s.endswith(suf)] *)
Fixpoint endswith (s suf : string) : bool :=
  String.eqb s suf ||
  match s with
  | EmptyString => false
  | String _ s' => endswith s' suf
  end.

(** [s.count(c)] for a one-character [c]. *)
Fixpoint count (s : string) (c : ascii) : Z :=
  match s with
  | EmptyString => 0
  | String a s' => ((if Ascii.eqb a c then 1 else 0) + count s' c)%Z
  end.

(** ASCII white space as [str.isspace] has it: TAB..CR, FS..US, SPACE. *)
Definition is_space (c : ascii) : bool :=
  let n := nat_of_ascii c in
  ((9 <=? n) && (n <=? 13) || (28 <=? n) && (n <=? 32))%nat.

Fixpoint lstrip (s : string) : string :=
  match s with
  | EmptyString => EmptyString
  | String c s' => if is_space c then lstrip s' else s
  end.

Fixpoint rstrip (s : string) : string :=
  match s with
  | EmptyString => EmptyString
  | String c s' =>
      match rstrip s' with
      | EmptyString => if is_space c then EmptyString else String c EmptyString
      | r => String c r
      end
  end.

Definition strip (s : string) : string := rstrip (lstrip s).

(** Truth value of a [str]: the empty string is false. *)
Definition truthy_str (s : string) : bool :=
  match s with EmptyString => false | _ => true end.

(** [s.split(sep)] for a one-character separator. *)
Fixpoint split (s : string) (sep : ascii) : list string :=
  match s with
  | EmptyString => [EmptyString]
  | String a s' =>
      if Ascii.eqb a sep then EmptyString :: split s' sep
      else match split s' sep with
           | h :: t => String a h :: t
           | [] => [String a EmptyString]
           end
  end.

(** [l[-1]] on a list of strings that [split] returned. *)
Definition last_item (l : list string) : string := List.last l EmptyString.

(** [str(n)] for an [int]. *)
Definition str_int (z : Z) : string := NilZero.string_of_int (Z.to_int z).

(** [any(p(x) for x in l)] *)
Definition any {A} (p : A -> bool) (l : list A) : bool := existsb p l.

(** [format(x, ".0f")]: the nearest whole number, a tie going to the even
    one, with the sign of [x] kept even when the digits are ["0"]. *)
Definition format_0f (x : Q) : string :=
  let n := Qnum x in
  let d := Zpos (Qden x) in
  let k := (Z.abs n / d)%Z in
  let r := (Z.abs n mod d)%Z in
  let rounded :=
    match (2 * r ?= d)%Z with
    | Lt => k
    | Gt => (k + 1)%Z
    | Eq => if Z.even k then k else (k + 1)%Z
    end in
  (if (n <? 0)%Z then "-" else "") ++ str_int rounded.

(** [d.get(key)] on a dictionary kept as an association list. *)
Fixpoint dict_get {A} (d : list (string * A)) (key : string) : option A :=
  match d with
  | [] => None
  | (k, v) :: d' => if String.eqb k key then Some v else dict_get d' key
  end.

(** [d[key] = v]: an existing key keeps its place, a new one goes last. *)
Fixpoint dict_set {A} (d : list (string * A)) (key : string) (v : A)
    : list (string * A) :=
  match d with
  | [] => [(key, v)]
  | (k, x) :: d' =>
      if String.eqb k key then (k, v) :: d' else (k, x) :: dict_set d' key v
  end.

(** [x in l] for a list of strings. *)
Definition elem (x : string) (l : list string) : bool :=
  existsb (String.eqb x) l.

(** A [float] where a not-a-number can occur: the thresholds of the rule
    table and the score handed to the controller.  A finite value is a
    rational as before; every comparison with [NaN] is false. *)
Inductive float_nan :=
| Num (q : Q)
| NaN.

Coercion Num : Q >-> float_nan.

(** [a < b] *)
Definition float_lt (a b : float_nan) : bool :=
  match a, b with
  | Num x, Num y => Qltb x y
  | _, _ => false
  end.

(** [a >= b] *)
Definition float_ge (a b : float_nan) : bool :=
  match a, b with
  | Num x, Num y => Qleb y x
  | _, _ => false
  end.

(** [math.isnan(a)] *)
Definition isnan (a : float_nan) : bool :=
  match a with
  | NaN => true
  | Num _ => false
  end.

End Py.

(** ** analyzer/risk_analyzer.py *)

Module risk_analyzer.
Import Py.
Local Open Scope Q_scope.

(** [class RiskLevel(Enum)], members in declaration order. *)
Inductive RiskLevel := SAFE | SUSPICIOUS | HIGH_RISK | CRITICAL.

Definition RiskLevel_members : list RiskLevel :=
  [SAFE; SUSPICIOUS; HIGH_RISK; CRITICAL].

(** [level.value], a pair of [int]s. *)
Definition value (level : RiskLevel) : Z * Z :=
  match level with
  | SAFE => (0, 30)
  | SUSPICIOUS => (31, 60)
  | HIGH_RISK => (61, 80)
  | CRITICAL => (81, 100)
  end%Z.

Record PermissionProfile := {
  app_name : string;
  declared_permissions : list string;
  access_history : list (string * Z)
}.

(** The keys of [process_data] that the analyzer and the controller read. *)
Record ProcessData := {
  name : option string;
  pid : option Z;
  executable : option string;
  command_line : option string;
  user_context : option string;
  create_time : option float;
  cpu_percent : option float;
  mem_percent : option float;
  num_threads : option Z;
  connections : option Z;
  open_files : option Z
}.

(** [self.risk_factors], an insertion-ordered dictionary. *)
Definition risk_factors : list (string * float) :=
  [ ("permission_abuse", 0.25);
    ("hidden_execution", 0.20);
    ("network_anomalies", 0.20);
    ("persistence_behavior", 0.15);
    ("resource_spikes", 0.10);
    ("masquerading_risk", 0.10) ].

(** [d[key]]; the analyzer only indexes keys that are present, the [0]
    of an absent key is never reached. *)
Fixpoint getitem (d : list (string * float)) (key : string) : float :=
  match d with
  | [] => 0
  | (k, v) :: d' => if String.eqb k key then v else getitem d' key
  end.

Definition _analyze_permission_abuse
    (process_data : ProcessData) (profile : option PermissionProfile) : float :=
  let score := 0.0 in
  let score :=
    match profile with
    | Some profile =>
        let connections := get (connections process_data) 0%Z in
        let open_files := get (open_files process_data) 0%Z in
        let score :=
          if (count (app_name profile) "." <? connections)%Z
          then score + 20.0 else score in
        if (50 <? open_files)%Z then score + 15.0 else score
    | None => score
    end in
  min 100.0 score.

Definition suspicious_names : list (string * Z) :=
  [ ("svch0st", 50); ("lsasa", 60); ("csrsa", 50); ("nvcssa", 40) ]%Z.

Definition _analyze_hidden_execution (process_data : ProcessData) : float :=
  let score := 0.0 in
  let name := lower (get (name process_data) "") in
  let score :=
    fold_left
      (fun score '(suspicious, severity) =>
         if contains suspicious name then score + of_int severity else score)
      suspicious_names score in
  let score :=
    if negb (truthy_str (strip (get (command_line process_data) "")))
    then score + 25.0 else score in
  let threads := get (num_threads process_data) 1%Z in
  let score := if (100 <? threads)%Z then score + 20.0 else score in
  min 100.0 score.

Definition _analyze_network_anomalies (process_data : ProcessData) : float :=
  let score := 0.0 in
  let connections := get (connections process_data) 0%Z in
  let score :=
    if (50 <? connections)%Z then score + 40.0
    else if (20 <? connections)%Z then score + 20.0
    else if (5 <? connections)%Z then score + 10.0
    else score in
  let name := lower (get (name process_data) "") in
  let system_processes := ["svchost"; "csrss"; "services"] in
  let score :=
    if any (fun sys_proc => contains sys_proc name) system_processes
    then (if (2 <? connections)%Z then score + 30.0 else score)
    else score in
  min 100.0 score.

(** Truth value of [create_time]: [None] and [0] are false. *)
Definition truthy_time (t : option float) : bool :=
  match t with
  | None => false
  | Some t => negb (Qeq_bool t 0)
  end.

Definition _analyze_persistence (process_data : ProcessData) : float :=
  let score := 0.0 in
  let user_context := lower (get (user_context process_data) "") in
  let name := lower (get (name process_data) "") in
  let score :=
    if contains "system" user_context
       && negb (any (fun sys_proc => contains sys_proc name)
                    ["svchost"; "services"; "lsass"])
    then score + 25.0 else score in
  let create_time := create_time process_data in
  let score :=
    if truthy_time create_time
       && match create_time with Some t => Qltb t 1e9 | None => false end
    then score + 15.0 else score in
  min 100.0 score.

Definition _analyze_resource_usage (process_data : ProcessData) : float :=
  let score := 0.0 in
  let cpu_percent := get (cpu_percent process_data) 0.0 in
  let mem_percent := get (mem_percent process_data) 0.0 in
  let score :=
    if Qltb 80 cpu_percent then score + 30.0
    else if Qltb 50 cpu_percent then score + 15.0
    else score in
  let score :=
    if Qltb 50 mem_percent then score + 30.0
    else if Qltb 20 mem_percent then score + 15.0
    else score in
  min 100.0 score.

Definition risky_extensions : list string :=
  [".scr"; ".pif"; ".bat"; ".cmd"; ".vbs"; ".js"].

Definition _analyze_masquerading (process_data : ProcessData) : float :=
  let score := 0.0 in
  let name := lower (get (name process_data) "") in
  let exe_path := lower (get (executable process_data) "") in
  let score :=
    if truthy_str exe_path && truthy_str name then
      let exe_basename :=
        lower (last_item (split (last_item (split exe_path "\")) "/")) in
      if negb (String.eqb exe_basename name) && negb (contains name exe_path)
      then score + 35.0 else score
    else score in
  let score :=
    if any (fun ext => endswith name ext) risky_extensions
    then score + 40.0 else score in
  min 100.0 score.

(** [calculate_risk_score]: the pair of the final score and the
    [factors] dictionary, in insertion order. *)
Definition calculate_risk_score
    (process_data : ProcessData) (permission_profile : option PermissionProfile)
    : float * list (string * float) :=
  let total_score := 0.0 in
  let permission_score := _analyze_permission_abuse process_data permission_profile in
  let total_score := total_score + permission_score * getitem risk_factors "permission_abuse" in
  let hidden_score := _analyze_hidden_execution process_data in
  let total_score := total_score + hidden_score * getitem risk_factors "hidden_execution" in
  let network_score := _analyze_network_anomalies process_data in
  let total_score := total_score + network_score * getitem risk_factors "network_anomalies" in
  let persistence_score := _analyze_persistence process_data in
  let total_score := total_score + persistence_score * getitem risk_factors "persistence_behavior" in
  let resource_score := _analyze_resource_usage process_data in
  let total_score := total_score + resource_score * getitem risk_factors "resource_spikes" in
  let masquerade_score := _analyze_masquerading process_data in
  let total_score := total_score + masquerade_score * getitem risk_factors "masquerading_risk" in
  let final_score := min 100.0 (max 0.0 total_score) in
  (final_score,
   [ ("permission_abuse", permission_score);
     ("hidden_execution", hidden_score);
     ("network_anomalies", network_score);
     ("persistence_behavior", persistence_score);
     ("resource_spikes", resource_score);
     ("masquerading_risk", masquerade_score) ]).

(** [min_val <= risk_score <= max_val] *)
Definition in_range (level : RiskLevel) (risk_score : float) : bool :=
  let '(min_val, max_val) := value level in
  Qleb (of_int min_val) risk_score && Qleb risk_score (of_int max_val).

(** The [for level in RiskLevel] loop of [get_risk_level], with the
    fall-through [return RiskLevel.CRITICAL]. *)
Fixpoint get_risk_level_loop (levels : list RiskLevel) (risk_score : float) : RiskLevel :=
  match levels with
  | [] => CRITICAL
  | level :: rest =>
      if in_range level risk_score then level
      else get_risk_level_loop rest risk_score
  end.

Definition get_risk_level (risk_score : float) : RiskLevel :=
  get_risk_level_loop RiskLevel_members risk_score.

(** [class RiskFactor] with its [contribution] property. *)
Record RiskFactor := {
  factor_name : string;
  weight : float;
  severity : float;
  factor_description : string
}.

Definition contribution (self : RiskFactor) : float :=
  (weight self / 100.0) * severity self.

(** [PermissionProfile.SAFE_PERMISSIONS] *)
Definition SAFE_PERMISSIONS : list (string * list string) :=
  [ ("notepad.exe", ["filesystem_read"; "network"]);
    ("chrome.exe", ["filesystem"; "network"; "camera"; "microphone"]);
    ("zoom.exe", ["camera"; "microphone"; "network"; "audio"]);
    ("explorer.exe", ["filesystem"; "network"]) ].

Definition _get_baseline (app_name : string) : list string :=
  get (dict_get SAFE_PERMISSIONS (lower app_name)) [].

(** [PermissionProfile(app_name, permissions)].  In
    [permissions or self._get_baseline(app_name)] both [None] and the
    empty list are false. *)
Definition PermissionProfile__init__
    (app_name : string) (permissions : option (list string)) : PermissionProfile :=
  {| app_name := app_name;
     declared_permissions :=
       match permissions with
       | Some (p :: l) => p :: l
       | _ => _get_baseline app_name
       end;
     access_history := [] |}.

Definition check_permission_violation
    (self : PermissionProfile) (permission : string) : bool :=
  negb (elem permission (declared_permissions self)).

Definition log_access (self : PermissionProfile) (permission : string)
    : PermissionProfile :=
  {| app_name := app_name self;
     declared_permissions := declared_permissions self;
     access_history :=
       dict_set (access_history self) permission
                (get (dict_get (access_history self) permission) 0 + 1)%Z |}.

(** [level.name] *)
Definition level_name (level : RiskLevel) : string :=
  match level with
  | SAFE => "SAFE"
  | SUSPICIOUS => "SUSPICIOUS"
  | HIGH_RISK => "HIGH_RISK"
  | CRITICAL => "CRITICAL"
  end.

(** [max(factors.items(), key=lambda x: x[1])]: the first item of the
    greatest value; on no items [max] raises [ValueError], here [None]. *)
Fixpoint max_item (best : string * float) (items : list (string * float))
    : string * float :=
  match items with
  | [] => best
  | x :: items' => max_item (if Qltb (snd best) (snd x) then x else best) items'
  end.

Definition top_factor (factors : list (string * float)) : option (string * float) :=
  match factors with
  | [] => None
  | x :: items => Some (max_item x items)
  end.

(** [generate_alert_message]; [None] is the [ValueError] of [max] on an
    empty [factors]. *)
Definition generate_alert_message (process_data : ProcessData)
    (risk_score : float) (factors : list (string * float)) : option string :=
  let name := get (name process_data) "Unknown" in
  let level := get_risk_level risk_score in
  match top_factor factors with
  | None => None
  | Some top_factor =>
      Some ("⚠️ ALERT: " ++ name
            ++ " (PID " ++ match pid process_data with
                           | Some n => str_int n
                           | None => "None"
                           end ++ ") - "
            ++ "Risk Level: " ++ level_name level
            ++ " (" ++ format_0f risk_score ++ "/100) | "
            ++ "Primary concern: " ++ fst top_factor)%string
  end.

End risk_analyzer.

(** ** controller/enforcement.py *)

Module enforcement.
Import Py.
Local Open Scope Q_scope.

Inductive EnforcementAction :=
| TERMINATE | SUSPEND | BLOCK_NETWORK | REVOKE_PERMISSIONS | QUARANTINE | WHITELIST.

(** [action.value] *)
Definition value (a : EnforcementAction) : string :=
  match a with
  | TERMINATE => "terminate"
  | SUSPEND => "suspend"
  | BLOCK_NETWORK => "block_network"
  | REVOKE_PERMISSIONS => "revoke_permissions"
  | QUARANTINE => "quarantine"
  | WHITELIST => "whitelist"
  end.

Record PolicyRule := {
  name : string;
  trigger_risk_score : float_nan;
  action : EnforcementAction;
  reversible : bool;
  requires_approval : bool;
  description : string
}.

(** One dictionary of [self.execution_log], as [_log_action] builds it. *)
Record LogEntry := {
  entry_timestamp : float;
  entry_action : string;
  entry_process_id : option Z;
  entry_reason : string;
  entry_success : bool;
  entry_error : option string
}.

(** What the controller asked for, in order.  The source keeps no such
    list: it is history kept beside the object so that "was invoked" can
    be stated.  [Invoked a p] is an entry into the method that carries
    out [a]; [Ran argv] is a call of [subprocess.run(argv)]. *)
Inductive Event :=
| Invoked (a : EnforcementAction) (process_id : option Z)
| Ran (argv : list string).

(** The object [self], with the history and the number of clock reads. *)
Record EnforcementController := {
  mode : string;
  system : string;
  execution_log : list LogEntry;
  policies : list PolicyRule;
  history : list Event;
  clock_reads : nat
}.

Definition _init_default_policies : list PolicyRule :=
  [ {| name := "Critical Threat Auto-Terminate";
       trigger_risk_score := 85;
       action := TERMINATE;
       reversible := false;
       requires_approval := true;
       description := "Automatically terminate processes flagged as critical threats" |};
    {| name := "High Risk Quarantine";
       trigger_risk_score := 70;
       action := QUARANTINE;
       reversible := true;
       requires_approval := false;
       description := "Suspend and block network for high-risk processes" |};
    {| name := "Suspicious Alert";
       trigger_risk_score := 50;
       action := SUSPEND;
       reversible := true;
       requires_approval := false;
       description := "Suspend suspicious processes pending review" |} ].

(** [EnforcementController(mode)] on a platform whose
    [platform.system()] is [system]. *)
Definition __init__ (mode system : string) : EnforcementController :=
  {| mode := mode;
     system := system;
     execution_log := [];
     policies := _init_default_policies;
     history := [];
     clock_reads := 0 |}.

(** *** The monad of the methods: state [self], and exceptions *)

Inductive Result (A : Type) :=
| Ok (a : A)
| Exception (e : string).
Arguments Ok {A} a.
Arguments Exception {A} e.

Definition M (A : Type) : Type :=
  EnforcementController -> Result A * EnforcementController.

Definition ret {A} (a : A) : M A := fun self => (Ok a, self).

Definition bind {A B} (m : M A) (k : A -> M B) : M B :=
  fun self =>
    match m self with
    | (Ok a, self') => k a self'
    | (Exception e, self') => (Exception e, self')
    end.

(** [try: body  except Exception as e: handler(str(e))] *)
Definition try_except {A} (body : M A) (handler : string -> M A) : M A :=
  fun self =>
    match body self with
    | (Ok a, self') => (Ok a, self')
    | (Exception e, self') => handler e self'
    end.

Definition read : M EnforcementController := fun self => (Ok self, self).

Notation "x <- m ;; k" := (bind m (fun x => k))
  (at level 61, m at next level, right associativity).
Notation "m ;;; k" := (bind m (fun _ => k))
  (at level 61, right associativity).

Definition record_event (e : Event) : M unit :=
  fun self =>
    (Ok tt,
     {| mode := mode self; system := system self;
        execution_log := execution_log self; policies := policies self;
        history := history self ++ [e]; clock_reads := clock_reads self |}).

(** [str(process_id)]; the pid comes from [process_data.get("pid")] and
    is [None] when the key is absent. *)
Definition str (process_id : option Z) : string :=
  match process_id with
  | Some n => str_int n
  | None => "None"
  end.

(** What one [subprocess.run] does: it returns a completed process with
    a return code, or raises. *)
Inductive Outcome :=
| Returned (returncode : Z)
| Raised (e : string).

(** The operating system: the outcome of each command and the clock. *)
Record Host := {
  run_outcome : list string -> Outcome;
  time_time : nat -> float
}.

Section Methods.
Variable host : Host.

Definition subprocess_run (argv : list string) : M Z :=
  record_event (Ran argv) ;;;
  match run_outcome host argv with
  | Returned returncode => ret returncode
  | Raised e => fun self => (Exception e, self)
  end.

Definition _log_action (action : string) (process_id : option Z)
    (reason : string) (success : bool) (error : option string) : M unit :=
  fun self =>
    let log_entry :=
      {| entry_timestamp := time_time host (clock_reads self);
         entry_action := action;
         entry_process_id := process_id;
         entry_reason := reason;
         entry_success := success;
         entry_error := error |} in
    (Ok tt,
     {| mode := mode self; system := system self;
        execution_log := execution_log self ++ [log_entry];
        policies := policies self;
        history := history self; clock_reads := S (clock_reads self) |}).

Definition _terminate_process (process_id : option Z) (reason : string) : M bool :=
  record_event (Invoked TERMINATE process_id) ;;;
  try_except
    (self <- read ;;
     returncode <-
       (if String.eqb (system self) "Windows"
        then subprocess_run ["taskkill"; "/PID"; str process_id; "/F"]
        else subprocess_run ["kill"; "-9"; str process_id]) ;;
     let success := (returncode =? 0)%Z in
     (if success then _log_action "terminate" process_id reason true None
      else ret tt) ;;;
     ret success)
    (fun e =>
       _log_action "terminate" process_id reason false (Some e) ;;;
       ret false).

Definition _suspend_process (process_id : option Z) (reason : string) : M bool :=
  record_event (Invoked SUSPEND process_id) ;;;
  try_except
    (self <- read ;;
     success <-
       (if String.eqb (system self) "Windows"
        then ret true
        else returncode <- subprocess_run ["kill"; "-STOP"; str process_id] ;;
             ret (returncode =? 0)%Z) ;;
     (if success then _log_action "suspend" process_id reason true None
      else ret tt) ;;;
     ret success)
    (fun e =>
       _log_action "suspend" process_id reason false (Some e) ;;;
       ret false).

Definition _block_network (process_id : option Z) (reason : string) : M bool :=
  record_event (Invoked BLOCK_NETWORK process_id) ;;;
  try_except
    (self <- read ;;
     let success := if String.eqb (system self) "Windows" then true else true in
     (if success then _log_action "block_network" process_id reason true None
      else ret tt) ;;;
     ret success)
    (fun e =>
       _log_action "block_network" process_id reason false (Some e) ;;;
       ret false).

Definition _quarantine_process (process_id : option Z) (reason : string) : M bool :=
  record_event (Invoked QUARANTINE process_id) ;;;
  try_except
    (_suspend_process process_id ("Quarantine: " ++ reason) ;;;
     _block_network process_id ("Quarantine: " ++ reason) ;;;
     _log_action "quarantine" process_id reason true None ;;;
     ret true)
    (fun e =>
       _log_action "quarantine" process_id reason false (Some e) ;;;
       ret false).

Definition execute_action (process_id : option Z) (action : EnforcementAction)
    (reason : string) : M bool :=
  self <- read ;;
  if String.eqb (mode self) "monitor" then ret false
  else
    try_except
      (match action with
       | TERMINATE => _terminate_process process_id reason
       | SUSPEND => _suspend_process process_id reason
       | BLOCK_NETWORK => _block_network process_id reason
       | QUARANTINE => _quarantine_process process_id reason
       | _ => ret false
       end)
      (fun e => ret false).

(** [sorted(self.policies, key=lambda p: p.trigger_risk_score,
    reverse=True)], as CPython 3.11 carries it out on a list of fewer
    than 64 items ([list.sort]): the list is reversed, sorted forward
    and stably, and reversed again.  The forward sort takes the natural
    run at the front of the list ([count_run]; a strictly descending run
    is reversed in place) and inserts the items after it one by one, each
    at the place a binary search gives ([binarysort]).  The keys are
    compared with [<] only.  On thresholds without [NaN] the result is the
    stable descending order, which is also what the merges of a longer
    list produce; a longer table that holds a [NaN] is not modelled. *)
Definition key_lt (p q : PolicyRule) : bool :=
  float_lt (trigger_risk_score p) (trigger_risk_score q).

(** The number of items after [prev] that continue a run in which no
    item is smaller than the one before it. *)
Fixpoint ascending_run (prev : PolicyRule) (l : list PolicyRule) : nat :=
  match l with
  | [] => 0
  | x :: l' => if key_lt x prev then 0 else S (ascending_run x l')
  end.

(** The same for a run in which every item is smaller than the one
    before it. *)
Fixpoint descending_run (prev : PolicyRule) (l : list PolicyRule) : nat :=
  match l with
  | [] => 0
  | x :: l' => if key_lt x prev then S (descending_run x l') else 0
  end.

(** [count_run]: the length of the run at the front, and whether it
    descends. *)
Definition count_run (l : list PolicyRule) : nat * bool :=
  match l with
  | [] => (0, false)
  | [a] => (1, false)
  | a :: b :: l' =>
      if key_lt b a then (2 + descending_run b l', true)
      else (2 + ascending_run b l', false)
  end%nat.

(** The search of [binarysort]: between [l] and [r] the middle item [p]
    is compared with the pivot; [r] becomes [p] when the pivot is
    smaller, otherwise [l] becomes [p + 1]; the place is [l] once
    [l >= r].  [steps] bounds the number of rounds. *)
Fixpoint insertion_point (steps : nat) (pivot : PolicyRule)
    (a : list PolicyRule) (l r : nat) : nat :=
  match steps with
  | O => l
  | S steps' =>
      if (l <? r)%nat then
        let p := (l + (r - l) / 2)%nat in
        match nth_error a p with
        | Some x =>
            if key_lt pivot x then insertion_point steps' pivot a l p
            else insertion_point steps' pivot a (p + 1)%nat r
        | None => l
        end
      else l
  end.

Definition insert_sorted (a : list PolicyRule) (pivot : PolicyRule)
    : list PolicyRule :=
  let l := insertion_point (length a) pivot a 0 (length a) in
  firstn l a ++ pivot :: skipn l a.

(** [binarysort]: the items of [rest] are inserted, in order, into the
    sorted [run] that precedes them. *)
Definition binarysort (run rest : list PolicyRule) : list PolicyRule :=
  fold_left insert_sorted rest run.

(** The forward sort of a list of fewer than 64 items: one run. *)
Definition list_sort (l : list PolicyRule) : list PolicyRule :=
  let '(n, descending) := count_run l in
  let run := firstn n l in
  binarysort (if descending then rev run else run) (skipn n l).

Definition sorted_reverse (l : list PolicyRule) : list PolicyRule :=
  rev (list_sort (rev l)).

(** The loop of [evaluate_and_enforce] that leaves [applied_policy]:
    the first rule, in sorted order, with
    [risk_score >= policy.trigger_risk_score]. *)
Fixpoint first_match (sorted_policies : list PolicyRule) (risk_score : float_nan)
    : option PolicyRule :=
  match sorted_policies with
  | [] => None
  | policy :: rest =>
      if float_ge risk_score (trigger_risk_score policy) then Some policy
      else first_match rest risk_score
  end.

Definition applied_policy (policies : list PolicyRule) (risk_score : float_nan)
    : option PolicyRule :=
  first_match (sorted_reverse policies) risk_score.

Definition evaluate_and_enforce
    (process_data : risk_analyzer.ProcessData) (risk_score : float_nan)
    : M (option EnforcementAction) :=
  self <- read ;;
  match applied_policy (policies self) risk_score with
  | None => ret None
  | Some applied_policy =>
      if String.eqb (mode self) "monitor" then ret None
      else
        let reason := name applied_policy ++ ": " ++ description applied_policy in
        success <- execute_action (risk_analyzer.pid process_data)
                                  (action applied_policy) reason ;;
        ret (if success then Some (action applied_policy) else None)
  end.

(** [resume_process]: the platform test is for "Linux" here, and the
    [except] branch logs nothing. *)
Definition resume_process (process_id : option Z) : M bool :=
  try_except
    (self <- read ;;
     success <-
       (if String.eqb (system self) "Linux"
        then returncode <- subprocess_run ["kill"; "-CONT"; str process_id] ;;
             ret (returncode =? 0)%Z
        else ret true) ;;
     (if success then _log_action "resume" process_id "User action" true None
      else ret tt) ;;;
     ret success)
    (fun e => ret false).

End Methods.

End enforcement.

(** * Terms of the statements: sums, scenarios, hosts *)

Module risk_analyzer_spec.
Import Py risk_analyzer.
Local Open Scope Q_scope.

(** The six named factors and their weights, as the documentation of
    [BehaviorAnalyzer] lists them. *)
Definition named_weights : list (string * Q) :=
  [ ("permission_abuse", 0.25); ("hidden_execution", 0.20);
    ("network_anomalies", 0.20); ("persistence_behavior", 0.15);
    ("resource_spikes", 0.10); ("masquerading_risk", 0.10) ].

Definition total_weight (weights : list (string * Q)) : Q :=
  fold_right (fun kw acc => snd kw + acc) 0 weights.

(** Sum over the named factors of weight times severity, the severity
    being looked up by name in the breakdown. *)
Definition weighted_sum (weights factors : list (string * Q)) : Q :=
  fold_right (fun kw acc => snd kw * getitem factors (fst kw) + acc) 0 weights.

(** Clamping to [[0,100]] with the order of [Q]. *)
Definition clamp (x : Q) : Q := Qmin 100 (Qmax 0 x).

(** The severities of the analyzers, by factor name. *)
Definition severities pd profile : list (string * Q) :=
  [ ("permission_abuse", _analyze_permission_abuse pd profile);
    ("hidden_execution", _analyze_hidden_execution pd);
    ("network_anomalies", _analyze_network_anomalies pd);
    ("persistence_behavior", _analyze_persistence pd);
    ("resource_spikes", _analyze_resource_usage pd);
    ("masquerading_risk", _analyze_masquerading pd) ].

(** A snapshot none of whose keys is present. *)
Definition empty_snapshot : ProcessData :=
  {| name := None; pid := None; executable := None; command_line := None;
     user_context := None; create_time := None; cpu_percent := None;
     mem_percent := None; num_threads := None; connections := None;
     open_files := None |}.

(** A process whose name carries two of the typosquats, with 51
    connections and a creation time of 5 seconds after the epoch. *)
Definition gap_snapshot : ProcessData :=
  {| name := Some "svch0st-lsasa.exe"; pid := Some 4242%Z;
     executable := None; command_line := None; user_context := None;
     create_time := Some 5; cpu_percent := None; mem_percent := None;
     num_threads := None; connections := Some 51%Z; open_files := None |}.

(** The dictionary of [test_calculate_risk_suspicious_app]. *)
Definition suspicious_process : ProcessData :=
  {| name := Some "svch0st.exe"; pid := Some 5678%Z; executable := None;
     command_line := Some ""; user_context := Some "System";
     create_time := None; cpu_percent := Some 85.0;
     mem_percent := Some 55.0; num_threads := Some 150%Z;
     connections := Some 75%Z; open_files := Some 100%Z |}.

Definition with_create_time (pd : ProcessData) (t : option float) : ProcessData :=
  {| name := name pd; pid := pid pd; executable := executable pd;
     command_line := command_line pd; user_context := user_context pd;
     create_time := t; cpu_percent := cpu_percent pd;
     mem_percent := mem_percent pd; num_threads := num_threads pd;
     connections := connections pd; open_files := open_files pd |}.

(** A process that draws every penalty at once, and a profile for it. *)
Definition worst_snapshot : ProcessData :=
  {| name := Some "svch0st-lsasa-csrss.js"; pid := Some 666%Z;
     executable := Some "C:\Temp\payload.bin"; command_line := Some "";
     user_context := Some "NT AUTHORITY\SYSTEM"; create_time := Some 1;
     cpu_percent := Some 99; mem_percent := Some 75;
     num_threads := Some 400%Z; connections := Some 80%Z;
     open_files := Some 90%Z |}.

Definition worst_profile : PermissionProfile :=
  PermissionProfile__init__ "payload" None.

(** [b] is the snapshot [a] with load figures at least as large: the
    strings and the creation time agree, and each number, read with the
    default its analyzer gives it, is no smaller. *)
Definition busier (a b : ProcessData) : Prop :=
  name a = name b /\ executable a = executable b /\
  command_line a = command_line b /\ user_context a = user_context b /\
  create_time a = create_time b /\
  get (cpu_percent a) 0.0 <= get (cpu_percent b) 0.0 /\
  get (mem_percent a) 0.0 <= get (mem_percent b) 0.0 /\
  (get (num_threads a) 1 <= get (num_threads b) 1)%Z /\
  (get (connections a) 0 <= get (connections b) 0)%Z /\
  (get (open_files a) 0 <= get (open_files b) 0)%Z.

(** The process of the test suite's suspicious snapshot, at rest. *)
Definition calm_process : ProcessData :=
  {| name := Some "svch0st.exe"; pid := Some 5678%Z; executable := None;
     command_line := Some ""; user_context := Some "System";
     create_time := None; cpu_percent := Some 10;
     mem_percent := Some 5; num_threads := Some 4%Z;
     connections := Some 1%Z; open_files := Some 3%Z |}.

(** The process and the breakdown of [test_alert_message_generation]. *)
Definition malware_process : ProcessData :=
  {| name := Some "malware.exe"; pid := Some 9999%Z; executable := None;
     command_line := None; user_context := None; create_time := None;
     cpu_percent := None; mem_percent := None; num_threads := None;
     connections := None; open_files := None |}.

Definition malware_factors : list (string * Q) :=
  [ ("permission_abuse", 85); ("hidden_execution", 60) ].

(** The count that [access_history] holds for a permission, 0 when the
    permission was never logged. *)
Definition access_count (self : PermissionProfile) (permission : string) : Z :=
  get (dict_get (access_history self) permission) 0%Z.

(** A run of [log_access] calls, in order. *)
Definition log_accesses (self : PermissionProfile) (permissions : list string)
    : PermissionProfile :=
  fold_left log_access permissions self.

End risk_analyzer_spec.

Module enforcement_spec.
Import Py enforcement.
Local Open Scope Q_scope.

(** No threshold of the table is a [NaN]. *)
Definition numeric (l : list PolicyRule) : Prop :=
  Forall (fun p => isnan (trigger_risk_score p) = false) l.

(** The threshold of [q] is not below that of [p]: [q < p] is false. *)
Definition key_le (p q : PolicyRule) : Prop := key_lt q p = false.

(** Thresholds never decrease, and never increase, along the list. *)
Definition ascending (l : list PolicyRule) : Prop :=
  StronglySorted key_le l.

Definition descending (l : list PolicyRule) : Prop :=
  StronglySorted (fun p q => key_le q p) l.

(** A host on which every command exits with status 1. *)
Definition failing_host : Host :=
  {| run_outcome := fun _ => Returned 1; time_time := fun n => inject_Z (Z.of_nat n) |}.

(** A host on which every command exits with status 0. *)
Definition obliging_host : Host :=
  {| run_outcome := fun _ => Returned 0; time_time := fun n => inject_Z (Z.of_nat n) |}.

Definition some_process : risk_analyzer.ProcessData :=
  risk_analyzer_spec.suspicious_process.

(** What the operating system answers to the one primitive of a single
    action, as the three methods have it: [_terminate_process] runs
    [taskkill] or [kill -9]; [_suspend_process] runs [kill -STOP], and
    on Windows nothing, taking success for granted; [_block_network]
    runs nothing on either platform.  The other actions have no single
    primitive. *)
Definition capability (host : Host) (system : string)
    (action : EnforcementAction) (process_id : option Z) : option Outcome :=
  match action with
  | TERMINATE =>
      Some (run_outcome host
              (if String.eqb system "Windows"
               then ["taskkill"; "/PID"; str process_id; "/F"]
               else ["kill"; "-9"; str process_id]))
  | SUSPEND =>
      Some (if String.eqb system "Windows" then Returned 0
            else run_outcome host ["kill"; "-STOP"; str process_id])
  | BLOCK_NETWORK => Some (Returned 0)
  | _ => None
  end.

Definition critical_rule : PolicyRule :=
  {| name := "Critical Threat Auto-Terminate";
     trigger_risk_score := 85;
     action := TERMINATE;
     reversible := false;
     requires_approval := true;
     description := "Automatically terminate processes flagged as critical threats" |}.

Definition quarantine_rule : PolicyRule :=
  {| name := "High Risk Quarantine";
     trigger_risk_score := 70;
     action := QUARANTINE;
     reversible := true;
     requires_approval := false;
     description := "Suspend and block network for high-risk processes" |}.

Definition monitor_linux : EnforcementController := __init__ "monitor" "Linux".
Definition enforce_linux : EnforcementController := __init__ "enforce" "Linux".

Definition suspicious_rule : PolicyRule :=
  {| name := "Suspicious Alert";
     trigger_risk_score := 50;
     action := SUSPEND;
     reversible := true;
     requires_approval := false;
     description := "Suspend suspicious processes pending review" |}.

(** A rule whose threshold is not a number, and the default table with
    it in the middle, lowest threshold first. *)
Definition nan_rule : PolicyRule :=
  {| name := "Unset Threshold";
     trigger_risk_score := NaN;
     action := BLOCK_NETWORK;
     reversible := true;
     requires_approval := false;
     description := "Rule read from a configuration without a threshold" |}.

Definition nan_table : list PolicyRule :=
  [suspicious_rule; nan_rule; critical_rule].

Definition nan_table_linux : EnforcementController :=
  {| mode := "enforce"; system := "Linux"; execution_log := [];
     policies := nan_table; history := []; clock_reads := 0 |}.

(** A rule with a given threshold, for showing what the sort does. *)
Definition rule_at (threshold : float_nan) : PolicyRule :=
  {| name := "Rule"; trigger_risk_score := threshold; action := SUSPEND;
     reversible := true; requires_approval := false; description := "" |}.

(** The thresholds of a table after the sort. *)
Definition sorted_thresholds (thresholds : list float_nan) : list float_nan :=
  map trigger_risk_score (sorted_reverse (map rule_at thresholds)).

(** The actions that [execute_action] dispatches to a method. *)
Definition supported (a : EnforcementAction) : bool :=
  match a with
  | TERMINATE | SUSPEND | BLOCK_NETWORK | QUARANTINE => true
  | REVOKE_PERMISSIONS | WHITELIST => false
  end.

(** A host on which [subprocess.run] raises, as when the command is not
    installed. *)
Definition raising_host : Host :=
  {| run_outcome := fun _ => Raised "[Errno 2] No such file or directory";
     time_time := fun n => inject_Z (Z.of_nat n) |}.

Definition enforce_darwin : EnforcementController := __init__ "enforce" "Darwin".

(** The commands among the events of a history. *)
Fixpoint commands (events : list Event) : list (list string) :=
  match events with
  | [] => []
  | Ran argv :: events' => argv :: commands events'
  | Invoked _ _ :: events' => commands events'
  end.

(** What every method keeps: it returns normally, it leaves the mode,
    the platform and the rule table alone, and it only adds to the
    execution log and to the history. *)
Definition well_behaved {A} (self : EnforcementController)
    (outcome : Result A * EnforcementController) : Prop :=
  (exists v, fst outcome = Ok v) /\
  mode (snd outcome) = mode self /\
  system (snd outcome) = system self /\
  policies (snd outcome) = policies self /\
  (exists appended,
      execution_log (snd outcome) = (execution_log self ++ appended)%list) /\
  (exists events, history (snd outcome) = (history self ++ events)%list).

Definition whitelist_rule : PolicyRule :=
  {| name := "Trusted Vendor";
     trigger_risk_score := 10;
     action := WHITELIST;
     reversible := true;
     requires_approval := false;
     description := "Leave trusted software alone" |}.

(** An enforcing controller whose table was replaced by one rule. *)
Definition whitelisting_linux : EnforcementController :=
  {| mode := "enforce"; system := "Linux"; execution_log := [];
     policies := [whitelist_rule]; history := []; clock_reads := 0 |}.

End enforcement_spec.

(** * Properties of the risk analyzer *)

Module risk_analyzer_facts.
Import Py risk_analyzer risk_analyzer_spec.
Local Open Scope Q_scope.

Lemma Qltb_lt (x y : Q) : Qltb x y = true <-> x < y.
Proof.
  unfold Qltb. rewrite Qlt_alt.
  destruct (x ?= y); split; congruence.
Qed.

Lemma Qltb_ge (x y : Q) : Qltb x y = false <-> y <= x.
Proof.
  rewrite <- Bool.not_true_iff_false, Qltb_lt. split.
  - apply Qnot_lt_le.
  - apply Qle_not_lt.
Qed.

Lemma Qleb_le (x y : Q) : Qleb x y = true <-> x <= y.
Proof.
  unfold Qleb. rewrite Qle_alt.
  destruct (x ?= y); split; congruence.
Qed.

Lemma Qleb_gt (x y : Q) : Qleb x y = false <-> y < x.
Proof.
  rewrite <- Bool.not_true_iff_false, Qleb_le. split.
  - apply Qnot_le_lt.
  - apply Qlt_not_le.
Qed.

(** Python's two-argument [min] and [max] agree with the order of [Q]. *)
Lemma min_spec (a b : Q) : min a b == Qmin a b.
Proof.
  unfold min. destruct (Qltb b a) eqn:E.
  - apply Qltb_lt in E. symmetry. apply Q.min_r. lra.
  - apply Qltb_ge in E. symmetry. apply Q.min_l. exact E.
Qed.

Lemma max_spec (a b : Q) : max a b == Qmax a b.
Proof.
  unfold max. destruct (Qltb a b) eqn:E.
  - apply Qltb_lt in E. symmetry. apply Q.max_r. lra.
  - apply Qltb_ge in E. symmetry. apply Q.max_l. exact E.
Qed.

Lemma min_cases (a b : Q) : (b < a /\ min a b = b) \/ (a <= b /\ min a b = a).
Proof.
  unfold min. destruct (Qltb b a) eqn:E.
  - left. split; [now apply Qltb_lt | reflexivity].
  - right. split; [now apply Qltb_ge | reflexivity].
Qed.

Lemma max_cases (a b : Q) : (a < b /\ max a b = b) \/ (b <= a /\ max a b = a).
Proof.
  unfold max. destruct (Qltb a b) eqn:E.
  - left. split; [now apply Qltb_lt | reflexivity].
  - right. split; [now apply Qltb_ge | reflexivity].
Qed.

(** The closing [min(100.0, score)] of every analyzer. *)
Lemma severity_cap (score : Q) : 0 <= score -> 0 <= min 100.0 score <= 100.
Proof.
  intros H. destruct (min_cases 100.0 score) as [[H1 ->] | [H1 ->]]; lra.
Qed.

Ltac split_ifs :=
  repeat match goal with
         | |- context [if ?b then _ else _] => destruct b
         end.

Lemma permission_abuse_range pd profile :
  0 <= _analyze_permission_abuse pd profile <= 100.
Proof.
  unfold _analyze_permission_abuse. apply severity_cap.
  destruct profile; split_ifs; lra.
Qed.

Lemma hidden_execution_range pd : 0 <= _analyze_hidden_execution pd <= 100.
Proof.
  unfold _analyze_hidden_execution. apply severity_cap.
  cbn [fold_left suspicious_names]. unfold of_int, inject_Z.
  split_ifs; lra.
Qed.

Lemma network_anomalies_range pd : 0 <= _analyze_network_anomalies pd <= 100.
Proof.
  unfold _analyze_network_anomalies. apply severity_cap.
  split_ifs; lra.
Qed.

Lemma persistence_range pd : 0 <= _analyze_persistence pd <= 100.
Proof.
  unfold _analyze_persistence. apply severity_cap.
  split_ifs; lra.
Qed.

Lemma resource_usage_range pd : 0 <= _analyze_resource_usage pd <= 100.
Proof.
  unfold _analyze_resource_usage. apply severity_cap.
  split_ifs; lra.
Qed.

Lemma masquerading_range pd : 0 <= _analyze_masquerading pd <= 100.
Proof.
  unfold _analyze_masquerading. apply severity_cap.
  split_ifs; lra.
Qed.

(** *** The weighted factor model *)

Lemma clamp_range (x : Q) : 0 <= clamp x <= 100.
Proof.
  unfold clamp.
  destruct (Q.min_spec 100 (Qmax 0 x)) as [[H ->] | [H ->]];
    destruct (Q.max_spec 0 x) as [[H' E] | [H' E]]; rewrite ?E in *; lra.
Qed.

Lemma clamp_id (x : Q) : 0 <= x <= 100 -> clamp x == x.
Proof.
  intros [H0 H1]. unfold clamp.
  rewrite (Q.max_r 0 x) by exact H0. apply Q.min_r. exact H1.
Qed.

Lemma final_score_clamp (x : Q) : min 100.0 (max 0.0 x) == clamp x.
Proof.
  unfold clamp. rewrite min_spec, max_spec.
  assert (E100 : 100.0 == 100) by reflexivity.
  assert (E0 : 0.0 == 0) by reflexivity.
  rewrite E100, E0. reflexivity.
Qed.

(** C5.  For every process snapshot, with any of its fields absent, and
    with or without a permission profile: the breakdown names the six
    factors with the severities of the six analyzers; the weights are
    0.25, 0.20, 0.20, 0.15, 0.10, 0.10 and sum to 1; the score is the
    sum of weight times severity over the six factors, clamped to
    [[0,100]]; and so the score lies between 0 and 100. *)
Theorem calculate_risk_score_weighted_sum pd profile :
  let score := fst (calculate_risk_score pd profile) in
  let factors := snd (calculate_risk_score pd profile) in
  factors = severities pd profile /\
  risk_factors = named_weights /\
  total_weight risk_factors == 1 /\
  score == clamp (weighted_sum risk_factors factors) /\
  0 <= score <= 100.
Proof.
  cbv zeta.
  assert (Hsum : fst (calculate_risk_score pd profile)
                 == clamp (weighted_sum risk_factors (severities pd profile))).
  { unfold calculate_risk_score. cbn [fst].
    rewrite final_score_clamp.
    unfold weighted_sum, severities.
    cbn [risk_factors fold_right fst snd getitem String.eqb Ascii.eqb Bool.eqb].
    generalize (_analyze_permission_abuse pd profile)
               (_analyze_hidden_execution pd)
               (_analyze_network_anomalies pd)
               (_analyze_persistence pd)
               (_analyze_resource_usage pd)
               (_analyze_masquerading pd).
    intros s1 s2 s3 s4 s5 s6.
    assert (E : 0.0 + s1 * 0.25 + s2 * 0.20 + s3 * 0.20 + s4 * 0.15
                + s5 * 0.10 + s6 * 0.10
                == 0.25 * s1 + (0.20 * s2 + (0.20 * s3 + (0.15 * s4
                   + (0.10 * s5 + (0.10 * s6 + 0)))))) by ring.
    unfold clamp. rewrite E. reflexivity. }
  split; [unfold calculate_risk_score, severities; cbn [snd]; reflexivity |].
  split; [unfold risk_factors, named_weights; reflexivity |].
  split; [vm_compute; reflexivity |].
  split; [exact Hsum |].
  rewrite Hsum. apply clamp_range.
Qed.

(** The clamp of [calculate_risk_score] never cuts anything off: the
    weighted sum itself already lies in [[0,100]]. *)
Lemma weighted_sum_in_range pd profile :
  0 <= weighted_sum risk_factors (severities pd profile) <= 100.
Proof.
  unfold weighted_sum, severities.
  cbn [risk_factors fold_right fst snd getitem String.eqb Ascii.eqb Bool.eqb].
  pose proof (permission_abuse_range pd profile).
  pose proof (hidden_execution_range pd).
  pose proof (network_anomalies_range pd).
  pose proof (persistence_range pd).
  pose proof (resource_usage_range pd).
  pose proof (masquerading_range pd).
  lra.
Qed.

(** *** Permission abuse without a profile *)

(** C10.  When no permission profile is supplied, the permission-abuse
    severity is 0 for every snapshot, whatever its connection and
    open-file counts, and the breakdown reports it as such. *)
Theorem permission_abuse_without_profile pd :
  _analyze_permission_abuse pd None == 0 /\
  getitem (snd (calculate_risk_score pd None)) "permission_abuse" == 0.
Proof.
  assert (E : _analyze_permission_abuse pd None == 0)
    by (unfold _analyze_permission_abuse; vm_compute; reflexivity).
  split; [exact E |].
  unfold calculate_risk_score.
  cbn [snd getitem String.eqb Ascii.eqb Bool.eqb]. exact E.
Qed.

(** *** Classification *)

Lemma in_range_int (level : RiskLevel) (n : Z) :
  in_range level (of_int n) = true <->
  (fst (value level) <= n <= snd (value level))%Z.
Proof.
  unfold in_range, of_int. destruct (value level) as [lo hi]. cbn [fst snd].
  rewrite Bool.andb_true_iff, !Qleb_le, <- !Zle_Qle. reflexivity.
Qed.

(** On whole scores the four ranges do partition [[0,100]], and
    [get_risk_level] returns the level whose range holds the score. *)
Lemma get_risk_level_whole_scores (n : Z) (level : RiskLevel) :
  (0 <= n <= 100)%Z ->
  (in_range level (of_int n) = true <-> get_risk_level (of_int n) = level).
Proof.
  intros Hn. unfold get_risk_level, RiskLevel_members.
  cbn [get_risk_level_loop].
  destruct (in_range SAFE (of_int n)) eqn:E1;
    [| destruct (in_range SUSPICIOUS (of_int n)) eqn:E2;
       [| destruct (in_range HIGH_RISK (of_int n)) eqn:E3;
          [| destruct (in_range CRITICAL (of_int n)) eqn:E4 ] ] ].
  all: repeat match goal with
              | H : in_range _ _ = true |- _ => apply in_range_int in H; cbn in H
              | H : in_range _ _ = false |- _ =>
                  apply Bool.not_true_iff_false in H;
                  rewrite in_range_int in H; cbn in H
              end.
  all: rewrite in_range_int; destruct level; cbn; split; intros;
    try reflexivity; try discriminate; try lia.
Qed.

(** C1, evaluated on the code.  The score 30.5 lies in [[0,100]] and in
    none of the four ranges, so the loop of [get_risk_level] falls
    through to [CRITICAL]; and [calculate_risk_score] does produce such
    scores: the snapshot above scores 30.25 and is classified
    [CRITICAL]. *)
Theorem get_risk_level_gap :
  0 <= 30.5 <= 100 /\
  (forall level, in_range level 30.5 = false) /\
  get_risk_level 30.5 = CRITICAL /\
  get_risk_level 30 = SAFE /\
  get_risk_level 31 = SUSPICIOUS /\
  fst (calculate_risk_score gap_snapshot None) == 30.25 /\
  get_risk_level (fst (calculate_risk_score gap_snapshot None)) = CRITICAL.
Proof.
  split; [split; vm_compute; discriminate |].
  split; [intros []; vm_compute; reflexivity |].
  repeat split; vm_compute; reflexivity.
Qed.

(** *** The scenario of the test suite *)

(** C8, evaluated on the code.  Without a profile the snapshot of the
    test scores 36.75 (severities 0, 95, 40, 25, 60, 0), which is not
    above 60, and is classified [SUSPICIOUS]; with any profile at all it
    still scores at most 45.5. *)
Theorem suspicious_process_score :
  map (fun kv => (fst kv, Qred (snd kv)))
      (snd (calculate_risk_score suspicious_process None))
  = [ ("permission_abuse", 0); ("hidden_execution", 95);
      ("network_anomalies", 40); ("persistence_behavior", 25);
      ("resource_spikes", 60); ("masquerading_risk", 0) ] /\
  fst (calculate_risk_score suspicious_process None) == 36.75 /\
  ~ 60 < fst (calculate_risk_score suspicious_process None) /\
  get_risk_level (fst (calculate_risk_score suspicious_process None)) = SUSPICIOUS /\
  (forall profile,
      fst (calculate_risk_score suspicious_process (Some profile)) <= 45.5).
Proof.
  split; [vm_compute; reflexivity |].
  split; [vm_compute; reflexivity |].
  split; [vm_compute; discriminate |].
  split; [vm_compute; reflexivity |].
  intros profile.
  unfold calculate_risk_score, _analyze_permission_abuse. cbn [fst].
  destruct (count (app_name profile) "." <? _)%Z;
    vm_compute; discriminate.
Qed.

(** *** Persistence *)

(** A creation time other than 0 and below 1e9 adds 15 to what the
    user-context test gave. *)
Lemma persistence_old_nonzero pd (t : Q) :
  ~ t == 0 -> t < 1e9 ->
  _analyze_persistence (with_create_time pd (Some t))
  == _analyze_persistence (with_create_time pd None) + 15.
Proof.
  intros Hnz Hold. unfold _analyze_persistence, with_create_time, truthy_time.
  cbn [create_time user_context name].
  assert (E1 : Qeq_bool t 0 = false).
  { apply Bool.not_true_iff_false. intros E. apply Qeq_bool_iff in E. tauto. }
  assert (E2 : Qltb t 1e9 = true) by now apply Qltb_lt.
  rewrite E1, E2. cbn [negb andb].
  destruct (contains "system" _ && _); vm_compute; reflexivity.
Qed.

(** C9, evaluated on the code.  A creation time of 0 is earlier than
    1e9, yet the truth test [create_time and ...] takes 0 for false: the
    severity is what it is with no creation time at all, without the 15.
    On the otherwise empty snapshot it is 0 at time 0 and 15 at time 1. *)
Theorem persistence_epoch_zero :
  0 < 1e9 /\
  (forall pd, _analyze_persistence (with_create_time pd (Some 0))
              = _analyze_persistence (with_create_time pd None)) /\
  _analyze_persistence (with_create_time empty_snapshot (Some 0)) == 0 /\
  _analyze_persistence (with_create_time empty_snapshot (Some 1)) == 15.
Proof.
  split; [reflexivity |].
  split; [intros pd; reflexivity |].
  split; vm_compute; reflexivity.
Qed.

End risk_analyzer_facts.

(** * Properties of the enforcement controller *)

Module enforcement_facts.
Import Py enforcement enforcement_spec.
Import risk_analyzer_facts.
Local Open Scope Q_scope.

(** *** The sort of the rule table *)

(** Turns facts on thresholds that are numbers into facts on [Q]. *)
Ltac keys :=
  unfold key_le, key_lt in *;
  repeat match goal with
         | H : context [trigger_risk_score ?p] |- _ =>
             let k := fresh "k" in
             let E := fresh "E" in
             remember (trigger_risk_score p) as k eqn:E in *;
             destruct k; clear E
         | |- context [trigger_risk_score ?p] =>
             let k := fresh "k" in
             let E := fresh "E" in
             remember (trigger_risk_score p) as k eqn:E in *;
             destruct k; clear E
         end;
  cbn [float_lt float_ge isnan] in *; try discriminate;
  repeat match goal with
         | H : Qltb _ _ = true |- _ => apply Qltb_lt in H
         | H : Qltb _ _ = false |- _ => apply Qltb_ge in H
         | H : Qleb _ _ = true |- _ => apply Qleb_le in H
         | H : Qleb _ _ = false |- _ => apply Qleb_gt in H
         | |- Qltb _ _ = true => apply Qltb_lt
         | |- Qltb _ _ = false => apply Qltb_ge
         | |- Qleb _ _ = true => apply Qleb_le
         | |- Qleb _ _ = false => apply Qleb_gt
         end;
  try lra.

Lemma key_le_trans (p q r : PolicyRule) :
  isnan (trigger_risk_score p) = false ->
  isnan (trigger_risk_score q) = false ->
  isnan (trigger_risk_score r) = false ->
  key_le p q -> key_le q r -> key_le p r.
Proof. intros. keys. Qed.

Lemma key_lt_le_trans (p q r : PolicyRule) :
  isnan (trigger_risk_score r) = false ->
  key_lt p q = true -> key_le q r -> key_lt p r = true.
Proof. intros. keys. Qed.

Lemma key_lt_le (p q : PolicyRule) : key_lt p q = true -> key_le p q.
Proof. intros. keys. Qed.

Lemma key_le_refl (p : PolicyRule) : key_le p p.
Proof.
  unfold key_le, key_lt, float_lt.
  destruct (trigger_risk_score p) as [x |]; [| reflexivity].
  apply Qltb_ge. lra.
Qed.

Lemma numeric_in (l : list PolicyRule) (p : PolicyRule) :
  numeric l -> In p l -> isnan (trigger_risk_score p) = false.
Proof. unfold numeric. rewrite Forall_forall. auto. Qed.

Lemma In_firstn {A} (n : nat) (l : list A) (x : A) : In x (firstn n l) -> In x l.
Proof.
  intros H. rewrite <- (firstn_skipn n l). apply in_or_app. now left.
Qed.

Lemma In_skipn {A} (n : nat) (l : list A) (x : A) : In x (skipn n l) -> In x l.
Proof.
  intros H. rewrite <- (firstn_skipn n l). apply in_or_app. now right.
Qed.

Lemma firstn_exact {A} (l1 l2 : list A) : firstn (length l1) (l1 ++ l2) = l1.
Proof. induction l1; cbn; [now destruct l2 | now f_equal]. Qed.

Lemma skipn_exact {A} (l1 l2 : list A) : skipn (length l1) (l1 ++ l2) = l2.
Proof. induction l1; cbn; auto. Qed.

Lemma firstn_one_more {A} (l1 l2 : list A) (x : A) :
  firstn (length l1 + 1) (l1 ++ x :: l2) = (l1 ++ [x])%list.
Proof. induction l1; cbn; [now destruct l2 | now f_equal]. Qed.

Lemma sorted_app_head {A} (R : A -> A -> Prop) (l1 l2 : list A) (x : A) :
  StronglySorted R (l1 ++ x :: l2) ->
  Forall (fun y => R y x) l1 /\ Forall (R x) l2.
Proof.
  induction l1 as [| a l1 IH]; cbn; intros H.
  - apply StronglySorted_inv in H. split; [constructor | tauto].
  - apply StronglySorted_inv in H. destruct H as [H Ha].
    destruct (IH H) as [H1 H2]. split; [| exact H2].
    constructor; [| exact H1].
    rewrite Forall_forall in Ha. apply Ha. apply in_or_app. right. now left.
Qed.

Lemma sorted_insert {A} (R : A -> A -> Prop) (l1 l2 : list A) (x : A) :
  StronglySorted R (l1 ++ l2) ->
  Forall (fun y => R y x) l1 -> Forall (R x) l2 ->
  StronglySorted R (l1 ++ x :: l2).
Proof.
  induction l1 as [| a l1 IH]; cbn; intros H H1 H2.
  - constructor; assumption.
  - apply StronglySorted_inv in H. destruct H as [H Ha].
    inversion H1 as [| ? ? Hax H1']; subst.
    constructor; [now apply IH |].
    rewrite Forall_forall in Ha |- *. intros y Hy.
    apply in_app_or in Hy. destruct Hy as [Hy | [<- | Hy]].
    + apply Ha. apply in_or_app. now left.
    + exact Hax.
    + apply Ha. apply in_or_app. now right.
Qed.

Lemma sorted_rev {A} (R : A -> A -> Prop) (l : list A) :
  StronglySorted R l -> StronglySorted (fun a b => R b a) (rev l).
Proof.
  induction l as [| a l IH]; cbn; intros H; [constructor |].
  apply StronglySorted_inv in H. destruct H as [H Ha].
  rewrite <- (app_nil_r (rev l)) in IH.
  apply (sorted_insert _ (rev l) [] a); [now apply IH | | constructor].
  apply Forall_rev. exact Ha.
Qed.

(** The search stops between the items that are not above the pivot and
    the items that are. *)
Lemma insertion_point_spec (pivot : PolicyRule) (a : list PolicyRule) :
  numeric a -> isnan (trigger_risk_score pivot) = false -> ascending a ->
  forall steps l r,
    (l <= r <= length a)%nat -> (r - l <= steps)%nat ->
    Forall (fun x => key_le x pivot) (firstn l a) ->
    Forall (fun x => key_lt pivot x = true) (skipn r a) ->
    Forall (fun x => key_le x pivot)
           (firstn (insertion_point steps pivot a l r) a) /\
    Forall (fun x => key_lt pivot x = true)
           (skipn (insertion_point steps pivot a l r) a).
Proof.
  intros Hnum Hpivot Hasc.
  induction steps as [| steps IH]; intros l r Hlr Hsteps Hl Hr.
  - cbn. assert (l = r) by lia. subst. auto.
  - cbn [insertion_point].
    destruct (Nat.ltb_spec l r) as [Hlt | Hge];
      [| assert (l = r) by lia; subst; auto].
    set (p := (l + (r - l) / 2)%nat).
    assert (Hp : (l <= p < r)%nat).
    { unfold p.
      assert ((r - l) / 2 < r - l)%nat by (apply Nat.div_lt; lia).
      lia. }
    destruct (nth_error a p) as [x |] eqn:Ex;
      [| apply nth_error_None in Ex; lia].
    destruct (nth_error_split a p Ex) as (l1 & l2 & Ha & Hlen).
    assert (Hx : isnan (trigger_risk_score x) = false).
    { apply (numeric_in a); [exact Hnum |]. rewrite Ha.
      apply in_or_app. right. now left. }
    unfold ascending in Hasc. rewrite Ha in Hasc.
    destruct (sorted_app_head _ _ _ _ Hasc) as [Hbefore Hafter].
    destruct (key_lt pivot x) eqn:Epx.
    + apply IH; [lia | lia | exact Hl |].
      rewrite Ha, <- Hlen, skipn_exact.
      constructor; [exact Epx |].
      rewrite Forall_forall in Hafter |- *. intros y Hy.
      apply (key_lt_le_trans pivot x y); [| exact Epx | now apply Hafter].
      apply (numeric_in a); [exact Hnum |]. rewrite Ha.
      apply in_or_app. right. now right.
    + apply IH; [lia | lia | | exact Hr].
      rewrite Ha, <- Hlen, firstn_one_more.
      apply Forall_app. split.
      * rewrite Forall_forall in Hbefore |- *. intros y Hy.
        apply (key_le_trans y x pivot); [| exact Hx | exact Hpivot
                                         | now apply Hbefore | exact Epx].
        apply (numeric_in a); [exact Hnum |]. rewrite Ha.
        apply in_or_app. now left.
      * constructor; [exact Epx | constructor].
Qed.

Lemma insert_sorted_Permutation (a : list PolicyRule) (pivot : PolicyRule) :
  Permutation (insert_sorted a pivot) (pivot :: a).
Proof.
  unfold insert_sorted.
  set (i := insertion_point _ _ _ _ _).
  rewrite <- (firstn_skipn i a) at 3.
  symmetry. apply Permutation_middle.
Qed.

Lemma insert_sorted_ascending (a : list PolicyRule) (pivot : PolicyRule) :
  numeric a -> isnan (trigger_risk_score pivot) = false ->
  ascending a -> ascending (insert_sorted a pivot).
Proof.
  intros Hnum Hpivot Hasc. unfold insert_sorted.
  destruct (insertion_point_spec pivot a Hnum Hpivot Hasc
              (length a) 0 (length a)) as [H1 H2].
  - lia.
  - lia.
  - constructor.
  - rewrite skipn_all. constructor.
  - apply sorted_insert.
    + rewrite firstn_skipn. exact Hasc.
    + exact H1.
    + eapply Forall_impl; [| exact H2]. cbn. intros y Hy. now apply key_lt_le.
Qed.

Lemma binarysort_Permutation (rest run : list PolicyRule) :
  Permutation (binarysort run rest) (run ++ rest).
Proof.
  unfold binarysort. revert run.
  induction rest as [| x rest IH]; intros run; cbn [fold_left].
  - now rewrite app_nil_r.
  - rewrite IH. rewrite insert_sorted_Permutation.
    apply Permutation_middle.
Qed.

Lemma binarysort_ascending (rest run : list PolicyRule) :
  numeric run -> numeric rest -> ascending run ->
  ascending (binarysort run rest).
Proof.
  unfold binarysort. revert run.
  induction rest as [| x rest IH]; intros run Hrun Hrest Hasc; cbn [fold_left].
  - exact Hasc.
  - inversion Hrest as [| ? ? Hx Hrest']; subst.
    apply IH; [| exact Hrest' | now apply insert_sorted_ascending].
    unfold numeric. rewrite insert_sorted_Permutation. now constructor.
Qed.

(** The run that [count_run] finds at the front is sorted. *)
Lemma ascending_run_sorted (l : list PolicyRule) (prev : PolicyRule) :
  numeric (prev :: l) ->
  ascending (prev :: firstn (ascending_run prev l) l).
Proof.
  revert prev. induction l as [| x l IH]; intros prev Hnum; cbn.
  - repeat constructor.
  - inversion Hnum as [| ? ? Hprev Hnum']; subst.
    destruct (key_lt x prev) eqn:E; cbn; [repeat constructor |].
    specialize (IH x Hnum').
    constructor; [exact IH |].
    constructor; [exact E |].
    apply StronglySorted_inv in IH. destruct IH as [_ Hx].
    rewrite Forall_forall in Hx |- *. intros y Hy.
    apply (key_le_trans prev x y); [exact Hprev | | | exact E | now apply Hx].
    + now inversion Hnum'.
    + apply (numeric_in (x :: l)); [exact Hnum' |]. right.
      now apply (In_firstn (ascending_run x l)).
Qed.

Lemma descending_run_sorted (l : list PolicyRule) (prev : PolicyRule) :
  numeric (prev :: l) ->
  descending (prev :: firstn (descending_run prev l) l).
Proof.
  revert prev. induction l as [| x l IH]; intros prev Hnum; cbn.
  - repeat constructor.
  - inversion Hnum as [| ? ? Hprev Hnum']; subst.
    destruct (key_lt x prev) eqn:E; cbn; [| repeat constructor].
    specialize (IH x Hnum').
    constructor; [exact IH |].
    constructor; [now apply key_lt_le |].
    apply StronglySorted_inv in IH. destruct IH as [_ Hx].
    rewrite Forall_forall in Hx |- *. intros y Hy.
    apply (key_le_trans y x prev); [| | exact Hprev | now apply Hx
                                    | now apply key_lt_le].
    + apply (numeric_in (x :: l)); [exact Hnum' |]. right.
      now apply (In_firstn (descending_run x l)).
    + now inversion Hnum'.
Qed.

Lemma list_sort_Permutation (l : list PolicyRule) : Permutation (list_sort l) l.
Proof.
  unfold list_sort. destruct (count_run l) as [n d].
  rewrite binarysort_Permutation.
  transitivity (firstn n l ++ skipn n l)%list;
    [| now rewrite firstn_skipn].
  apply Permutation_app_tail.
  destruct d; [symmetry; apply Permutation_rev | reflexivity].
Qed.

Lemma list_sort_ascending (l : list PolicyRule) :
  numeric l -> ascending (list_sort l).
Proof.
  intros Hnum. unfold list_sort.
  destruct l as [| a [| b l]].
  - cbn. constructor.
  - cbn. repeat constructor.
  - assert (Hrest : forall n, numeric (skipn n (a :: b :: l))).
    { intros n. unfold numeric in *. rewrite Forall_forall in Hnum |- *.
      intros y Hy. apply Hnum. now apply (In_skipn n). }
    assert (Hrun : forall n, numeric (firstn n (a :: b :: l))).
    { intros n. unfold numeric in *. rewrite Forall_forall in Hnum |- *.
      intros y Hy. apply Hnum. now apply (In_firstn n). }
    cbn [count_run]. destruct (key_lt b a) eqn:E.
    + apply binarysort_ascending; [| apply Hrest |].
      * unfold numeric. apply Forall_rev. apply Hrun.
      * pose proof (descending_run_sorted (b :: l) a Hnum) as H.
        cbn [descending_run] in H. rewrite E in H.
        apply sorted_rev in H. exact H.
    + apply binarysort_ascending; [apply Hrun | apply Hrest |].
      pose proof (ascending_run_sorted (b :: l) a Hnum) as H.
      cbn [ascending_run] in H. rewrite E in H. exact H.
Qed.

Lemma sorted_reverse_Permutation (l : list PolicyRule) :
  Permutation (sorted_reverse l) l.
Proof.
  unfold sorted_reverse.
  rewrite <- Permutation_rev, list_sort_Permutation.
  symmetry. apply Permutation_rev.
Qed.

Lemma sorted_reverse_In (x : PolicyRule) (l : list PolicyRule) :
  In x (sorted_reverse l) <-> In x l.
Proof.
  split; apply Permutation_in;
    [| symmetry]; apply sorted_reverse_Permutation.
Qed.

Lemma sorted_reverse_descending (l : list PolicyRule) :
  numeric l -> descending (sorted_reverse l).
Proof.
  intros Hnum. unfold sorted_reverse, descending.
  apply (sorted_rev key_le). apply list_sort_ascending.
  unfold numeric. apply Forall_rev. exact Hnum.
Qed.

(** What the sort does to tables that hold a NaN, as [sorted] of
    CPython 3.11 does: a table on which no item is smaller than the one
    before it, read from the back, is left alone; otherwise the NaN
    stays where the binary search puts it. *)
Lemma sorted_reverse_with_nan :
  sorted_thresholds [Num 50; NaN; Num 85] = [Num 50; NaN; Num 85] /\
  sorted_thresholds [NaN; Num 50; Num 85] = [NaN; Num 85; Num 50] /\
  sorted_thresholds [Num 5; Num 7; NaN; Num 6] = [Num 7; Num 5; NaN; Num 6] /\
  sorted_thresholds [Num 3; Num 2; NaN; Num 2; Num 1]
  = [Num 3; Num 2; NaN; Num 2; Num 1] /\
  sorted_thresholds [Num 50; Num 85; Num 70; Num 85]
  = [Num 85; Num 85; Num 70; Num 50].
Proof.
  repeat split; vm_compute; reflexivity.
Qed.

(** *** Policy selection *)

(** The loop over a descending list of numbers stops at the highest
    threshold that the score reaches. *)
Lemma first_match_descending (l : list PolicyRule) (risk_score : float_nan) :
  numeric l -> descending l ->
  match first_match l risk_score with
  | Some p =>
      In p l /\ float_ge risk_score (trigger_risk_score p) = true /\
      forall q, In q l ->
                float_ge risk_score (trigger_risk_score q) = true ->
                float_ge (trigger_risk_score p) (trigger_risk_score q) = true
  | None =>
      forall q, In q l -> float_ge risk_score (trigger_risk_score q) = false
  end.
Proof.
  unfold descending. induction l as [| p l IH]; intros Hnum Hl; cbn.
  - intros q [].
  - inversion Hl as [| ? ? Hl' Hp]; subst.
    inversion Hnum as [| ? ? Hpn Hnum']; subst.
    destruct (float_ge risk_score (trigger_risk_score p)) eqn:E.
    + split; [now left |]. split; [exact E |].
      intros q [<- | Hq] _.
      * clear - Hpn. keys.
      * rewrite Forall_forall in Hp. specialize (Hp q Hq).
        pose proof (numeric_in l q Hnum' Hq) as Hqn.
        clear - Hp Hpn Hqn. keys.
    + specialize (IH Hnum' Hl').
      destruct (first_match l risk_score) as [r |].
      * destruct IH as (Hin & Hle & Hmax).
        split; [now right |]. split; [exact Hle |].
        intros q [<- | Hq] Hq'; [congruence | now apply Hmax].
      * intros q [<- | Hq]; [exact E | now apply IH].
Qed.

(** On a table of numbers, the rule applied is one of highest threshold
    among those the score reaches. *)
Lemma applied_policy_max (l : list PolicyRule) (risk_score : float_nan) :
  numeric l ->
  match applied_policy l risk_score with
  | Some p =>
      In p l /\ float_ge risk_score (trigger_risk_score p) = true /\
      forall q, In q l ->
                float_ge risk_score (trigger_risk_score q) = true ->
                float_ge (trigger_risk_score p) (trigger_risk_score q) = true
  | None =>
      forall q, In q l -> float_ge risk_score (trigger_risk_score q) = false
  end.
Proof.
  intros Hnum. unfold applied_policy.
  assert (Hnum' : numeric (sorted_reverse l)).
  { unfold numeric. rewrite sorted_reverse_Permutation. exact Hnum. }
  pose proof (first_match_descending (sorted_reverse l) risk_score Hnum'
                (sorted_reverse_descending l Hnum)) as H.
  destruct (first_match (sorted_reverse l) risk_score) as [p |].
  - destruct H as (Hin & Hle & Hmax). split; [now apply sorted_reverse_In |].
    split; [exact Hle |]. intros q Hq. apply Hmax. now apply sorted_reverse_In.
  - intros q Hq. apply H. now apply sorted_reverse_In.
Qed.

(** *** Running the methods *)

(** Unfolds the monad and the methods, never the string functions. *)
Ltac run :=
  cbv beta iota zeta delta
    [evaluate_and_enforce execute_action _quarantine_process
     _terminate_process _suspend_process _block_network subprocess_run
     _log_action record_event bind try_except read ret];
  cbn [mode system execution_log policies history clock_reads fst snd].

Lemma monitor_eqb (self : EnforcementController) :
  mode self <> "monitor" -> String.eqb (mode self) "monitor" = false.
Proof. intros H. now apply String.eqb_neq. Qed.

Lemma first_match_nan (l : list PolicyRule) : first_match l NaN = None.
Proof. induction l as [| p l IH]; cbn; [reflexivity | exact IH]. Qed.

(** C4, as the code has it.  For every score and every rule table none
    of whose thresholds is a NaN, the rule that [evaluate_and_enforce]
    applies is a rule of the table whose threshold the score reaches and
    whose threshold is the highest among such rules, wherever it was
    declared; in Monitor mode the call then returns [None] and changes
    nothing, in any other mode it executes the action of that rule and
    returns it when [execute_action] reports success.  When the score
    reaches no threshold (a NaN score never does) no rule is applied and
    the call returns [None], leaving the controller as it was.  Against
    the default table, 90 selects "Critical Threat Auto-Terminate"
    (Terminate), also when the table is declared in the opposite order,
    55 selects "Suspicious Alert" (Suspend), and 40 selects nothing; on a
    Linux host whose commands succeed the three calls return Terminate,
    Suspend and [None]. *)
Theorem applied_policy_highest_threshold :
  (forall host self process_data risk_score,
      numeric (policies self) ->
      match applied_policy (policies self) risk_score with
      | Some p =>
          In p (policies self) /\
          float_ge risk_score (trigger_risk_score p) = true /\
          (forall q, In q (policies self) ->
                     float_ge risk_score (trigger_risk_score q) = true ->
                     float_ge (trigger_risk_score p) (trigger_risk_score q)
                     = true) /\
          evaluate_and_enforce host process_data risk_score self
          = if String.eqb (mode self) "monitor" then (Ok None, self)
            else
              let outcome :=
                execute_action host (risk_analyzer.pid process_data) (action p)
                               (name p ++ ": " ++ description p)%string self in
              (match fst outcome with
               | Ok true => Ok (Some (action p))
               | Ok false => Ok None
               | Exception e => Exception e
               end, snd outcome)
      | None =>
          (forall q, In q (policies self) ->
                     float_ge risk_score (trigger_risk_score q) = false) /\
          evaluate_and_enforce host process_data risk_score self = (Ok None, self)
      end) /\
  (forall l, applied_policy l NaN = None) /\
  option_map (fun p => (name p, action p)) (applied_policy _init_default_policies 90)
  = Some ("Critical Threat Auto-Terminate", TERMINATE) /\
  option_map (fun p => (name p, action p))
             (applied_policy (rev _init_default_policies) 90)
  = Some ("Critical Threat Auto-Terminate", TERMINATE) /\
  option_map (fun p => (name p, action p)) (applied_policy _init_default_policies 55)
  = Some ("Suspicious Alert", SUSPEND) /\
  applied_policy _init_default_policies 40 = None /\
  fst (evaluate_and_enforce obliging_host some_process 90 enforce_linux)
  = Ok (Some TERMINATE) /\
  fst (evaluate_and_enforce obliging_host some_process 55 enforce_linux)
  = Ok (Some SUSPEND) /\
  evaluate_and_enforce obliging_host some_process 40 enforce_linux
  = (Ok None, enforce_linux).
Proof.
  split; [| split; [intros l; apply first_match_nan |];
            repeat split; vm_compute; reflexivity].
  intros host self process_data risk_score Hnum.
  pose proof (applied_policy_max (policies self) risk_score Hnum) as H.
  unfold evaluate_and_enforce, bind, read, ret.
  destruct (applied_policy (policies self) risk_score) as [p |].
  - destruct H as (Hin & Hle & Hmax).
    split; [exact Hin |]. split; [exact Hle |]. split; [exact Hmax |].
    destruct (String.eqb (mode self) "monitor"); [reflexivity |].
    cbv zeta.
    destruct (execute_action host (risk_analyzer.pid process_data) (action p)
                (name p ++ ": " ++ description p)%string self)
      as [[[] | e] self']; reflexivity.
  - split; [exact H | reflexivity].
Qed.

Lemma applied_policy_highest_threshold_witness :
  numeric (policies enforce_linux) /\
  applied_policy (policies enforce_linux) 90 = Some critical_rule /\
  (forall q, In q (policies enforce_linux) ->
             float_ge 90 (trigger_risk_score q) = true ->
             float_ge (trigger_risk_score critical_rule) (trigger_risk_score q)
             = true) /\
  evaluate_and_enforce obliging_host some_process 40 enforce_linux
  = (Ok None, enforce_linux).
Proof.
  assert (Hnum : numeric (policies enforce_linux))
    by (repeat constructor).
  split; [exact Hnum |]. split; [reflexivity |]. split.
  - exact (proj1 (proj2 (proj2
             (proj1 applied_policy_highest_threshold
                obliging_host enforce_linux some_process 90 Hnum)))).
  - exact (proj2 (proj1 applied_policy_highest_threshold
                    obliging_host enforce_linux some_process 40 Hnum)).
Defined.

(** C4 as stated fails on a table with a NaN threshold.  With the rules
    declared as 50, NaN, 85 the sort leaves the table as it is, since no
    comparison with the NaN succeeds; at score 90 the scan stops at the
    rule of 50, although the rule of 85 is in the table, is reached by
    the score and has the higher threshold.  The call suspends. *)
Lemma highest_threshold_fails_with_nan :
  sorted_reverse nan_table = nan_table /\
  applied_policy nan_table 90 = Some suspicious_rule /\
  In critical_rule nan_table /\
  float_ge 90 (trigger_risk_score critical_rule) = true /\
  float_lt (trigger_risk_score suspicious_rule)
           (trigger_risk_score critical_rule) = true /\
  float_ge (trigger_risk_score suspicious_rule)
           (trigger_risk_score critical_rule) = false /\
  fst (evaluate_and_enforce obliging_host some_process 90 nan_table_linux)
  = Ok (Some SUSPEND).
Proof.
  split; [vm_compute; reflexivity |].
  split; [vm_compute; reflexivity |].
  split; [right; right; left; reflexivity |].
  repeat split; vm_compute; reflexivity.
Qed.

(** C2.  In Monitor mode [evaluate_and_enforce] returns [None] and
    leaves the controller exactly as it was, for every host, snapshot
    and score: nothing is added to the history of invocations (no
    terminate, suspend, block-network or quarantine method is entered,
    no command is run) and nothing to the execution log.  The same
    holds for [execute_action] called directly, which returns [False]. *)
Theorem monitor_mode_invokes_nothing
    host (self : EnforcementController) process_data risk_score :
  mode self = "monitor" ->
  evaluate_and_enforce host process_data risk_score self = (Ok None, self) /\
  history (snd (evaluate_and_enforce host process_data risk_score self))
  = history self /\
  forall process_id action reason,
    execute_action host process_id action reason self = (Ok false, self).
Proof.
  intros Hmode.
  assert (E : evaluate_and_enforce host process_data risk_score self
              = (Ok None, self)).
  { unfold evaluate_and_enforce, bind, read, ret.
    destruct (applied_policy (policies self) risk_score); [| reflexivity].
    rewrite Hmode. reflexivity. }
  split; [exact E |]. split; [rewrite E; reflexivity |].
  intros process_id action reason.
  unfold execute_action, bind, read, ret. rewrite Hmode. reflexivity.
Qed.

Lemma monitor_mode_invokes_nothing_witness :
  mode (__init__ "monitor" "Linux") = "monitor" /\
  evaluate_and_enforce failing_host some_process 90 (__init__ "monitor" "Linux")
  = (Ok None, __init__ "monitor" "Linux").
Proof.
  split.
  - reflexivity.
  - apply (monitor_mode_invokes_nothing
             failing_host (__init__ "monitor" "Linux") some_process 90).
    reflexivity.
Defined.

Ltac step :=
  run;
  match goal with
  | |- context [String.eqb (system ?s) "Windows"] =>
      destruct (String.eqb (system s) "Windows") eqn:?
  | |- context [run_outcome ?h ?argv] =>
      destruct (run_outcome h argv) as [? | ?] eqn:?
  | |- context [Z.eqb ?r 0] => destruct (Z.eqb r 0) eqn:?
  end.

Ltac grown :=
  repeat rewrite <- app_assoc;
  first [ eexists; reflexivity
        | exists []; rewrite app_nil_r; reflexivity ].

(** *** The audit trail *)

Lemma evaluate_and_enforce_monitor host self process_data risk_score :
  mode self = "monitor" ->
  evaluate_and_enforce host process_data risk_score self = (Ok None, self).
Proof.
  intros Hmode. unfold evaluate_and_enforce, bind, read, ret.
  destruct (applied_policy (policies self) risk_score); [| reflexivity].
  rewrite Hmode. reflexivity.
Qed.

(** C3, as the code has it.  When a rule matches: in Monitor mode the
    execution log is left as it was; in any other mode the log only
    grows, and when the selected action is Terminate, Suspend or
    BlockNetwork, exactly one record is appended if its primitive
    succeeds (success flag true, no error) and exactly one if its
    primitive raises an error (success flag false, with the error
    text). *)
Theorem audit_records_by_mode
    host (self : EnforcementController) process_data risk_score p :
  applied_policy (policies self) risk_score = Some p ->
  let after := snd (evaluate_and_enforce host process_data risk_score self) in
  let process_id := risk_analyzer.pid process_data in
  let reason := name p ++ ": " ++ description p in
  (mode self = "monitor" -> execution_log after = execution_log self) /\
  (mode self <> "monitor" ->
   (exists appended, execution_log after = (execution_log self ++ appended)%list) /\
   (capability host (system self) (action p) process_id = Some (Returned 0) ->
    exists e,
      execution_log after = (execution_log self ++ [e])%list /\
      entry_action e = value (action p) /\
      entry_process_id e = process_id /\
      entry_reason e = reason /\
      entry_success e = true /\
      entry_error e = None) /\
   (forall msg,
       capability host (system self) (action p) process_id = Some (Raised msg) ->
       exists e,
         execution_log after = (execution_log self ++ [e])%list /\
         entry_action e = value (action p) /\
         entry_process_id e = process_id /\
         entry_reason e = reason /\
         entry_success e = false /\
         entry_error e = Some msg)).
Proof.
  intros Happ. cbv zeta. split.
  - intros Hmode. now rewrite evaluate_and_enforce_monitor.
  - intros Hmode. apply monitor_eqb in Hmode.
    unfold capability. run. rewrite Happ. run. rewrite Hmode. run.
    rewrite Hmode.
    destruct (action p); repeat step; run.
    all: split; [grown |].
    all: split; [intros H | intros msg H]; try discriminate H.
    all: try (injection H as H; try discriminate H); subst.
    all: try (rewrite Z.eqb_refl in *; discriminate).
    all: eexists; repeat split; reflexivity.
Qed.

Lemma audit_records_by_mode_witness :
  applied_policy (policies enforce_linux) 90 = Some critical_rule /\
  mode enforce_linux <> "monitor" /\
  capability obliging_host (system enforce_linux) (action critical_rule)
             (risk_analyzer.pid some_process) = Some (Returned 0) /\
  exists e,
    execution_log
      (snd (evaluate_and_enforce obliging_host some_process 90 enforce_linux))
    = [e] /\
    entry_action e = "terminate" /\ entry_success e = true.
Proof.
  assert (Happ : applied_policy (policies enforce_linux) 90 = Some critical_rule)
    by reflexivity.
  assert (Hmode : mode enforce_linux <> "monitor") by discriminate.
  assert (Hcap : capability obliging_host (system enforce_linux)
                   (action critical_rule) (risk_analyzer.pid some_process)
                 = Some (Returned 0)) by reflexivity.
  split; [exact Happ |]. split; [exact Hmode |]. split; [exact Hcap |].
  destruct (audit_records_by_mode obliging_host enforce_linux some_process 90
              critical_rule Happ) as [_ H].
  destruct (H Hmode) as (_ & Hok & _).
  destruct (Hok Hcap) as (e & Hlog & Hact & _ & _ & Hsucc & _).
  exists e. split; [exact Hlog |]. split; [exact Hact | exact Hsucc].
Defined.

(** C3 as stated fails in Monitor mode: against the default table the
    score 90 matches a rule, and the call appends no record at all. *)
Lemma audit_record_missing_in_monitor_mode :
  applied_policy (policies monitor_linux) 90 = Some critical_rule /\
  execution_log
    (snd (evaluate_and_enforce obliging_host some_process 90 monitor_linux))
  = execution_log monitor_linux /\
  ~ exists e,
      execution_log
        (snd (evaluate_and_enforce obliging_host some_process 90 monitor_linux))
      = (execution_log monitor_linux ++ [e])%list.
Proof.
  split; [reflexivity |]. split; [reflexivity |].
  intros [e H]. vm_compute in H. discriminate H.
Qed.

(** A [kill -9] that exits with a non-zero status takes neither the
    [if success] branch nor the [except] branch of
    [_terminate_process]: the call returns [None] and the log stays
    empty. *)
Lemma terminate_failure_not_recorded :
  applied_policy (policies enforce_linux) 90 = Some critical_rule /\
  evaluate_and_enforce failing_host some_process 90 enforce_linux
  = (Ok None,
     {| mode := "enforce"; system := "Linux"; execution_log := [];
        policies := _init_default_policies;
        history := [Invoked TERMINATE (Some 5678%Z); Ran ["kill"; "-9"; "5678"]];
        clock_reads := 0 |}).
Proof.
  split; vm_compute; reflexivity.
Qed.

(** *** Quarantine *)

(** [_quarantine_process] answers [True] on every host, and its last
    record says so: the answers of the two sub-actions are dropped. *)
Lemma _quarantine_process_reports_success host process_id reason self :
  fst (_quarantine_process host process_id reason self) = Ok true /\
  exists earlier e,
    execution_log (snd (_quarantine_process host process_id reason self))
    = (execution_log self ++ earlier ++ [e])%list /\
    entry_action e = "quarantine" /\ entry_success e = true.
Proof.
  repeat step; run.
  all: split; [reflexivity |].
  all: repeat rewrite <- app_assoc.
  all: first
    [ eexists (_ :: nil); eexists; split; [reflexivity | split; reflexivity]
    | eexists (_ :: _ :: nil); eexists; split;
      [reflexivity | split; reflexivity] ].
Qed.

(** C6, evaluated on the code.  Enforce mode on Linux, a host whose
    commands all exit with status 1, score 75: the rule is "High Risk
    Quarantine"; the Suspend sub-action answers [False], the
    BlockNetwork sub-action [True]; yet the quarantine record carries
    success [True] and the call reports the action as carried out. *)
Theorem quarantine_success_ignores_suspend_failure :
  let reason := name quarantine_rule ++ ": " ++ description quarantine_rule in
  let process_id := risk_analyzer.pid some_process in
  let outcome := evaluate_and_enforce failing_host some_process 75 enforce_linux in
  applied_policy (policies enforce_linux) 75 = Some quarantine_rule /\
  fst (_suspend_process failing_host process_id ("Quarantine: " ++ reason) enforce_linux)
  = Ok false /\
  fst (_block_network failing_host process_id ("Quarantine: " ++ reason) enforce_linux)
  = Ok true /\
  fst outcome = Ok (Some QUARANTINE) /\
  map (fun e => (entry_action e, entry_success e)) (execution_log (snd outcome))
  = [("block_network", true); ("quarantine", true)].
Proof.
  cbv zeta. repeat split; vm_compute; reflexivity.
Qed.

(** C7.  When Quarantine is executed outside Monitor mode, on every
    host - whether the suspend command exits with 0, exits with another
    status, or raises - the methods entered are, in this order,
    quarantine, suspend and block-network; and the record of the
    block-network sub-action, marked successful, is in the log just
    before the quarantine record. *)
Theorem quarantine_attempts_both_sub_actions
    host (self : EnforcementController) process_id reason :
  mode self <> "monitor" ->
  let after := snd (execute_action host process_id QUARANTINE reason self) in
  history after
  = (history self
     ++ [Invoked QUARANTINE process_id; Invoked SUSPEND process_id]
     ++ (if String.eqb (system self) "Windows" then []
         else [Ran ["kill"; "-STOP"; str process_id]])
     ++ [Invoked BLOCK_NETWORK process_id])%list /\
  exists suspend_records blocked quarantined,
    execution_log after
    = (execution_log self ++ suspend_records ++ [blocked; quarantined])%list /\
    entry_action blocked = "block_network" /\
    entry_process_id blocked = process_id /\
    entry_reason blocked = "Quarantine: " ++ reason /\
    entry_success blocked = true /\
    entry_action quarantined = "quarantine".
Proof.
  intros Hmode. apply monitor_eqb in Hmode. cbv zeta.
  run. rewrite Hmode. repeat step; run.
  all: repeat rewrite <- app_assoc; cbn [app].
  all: split; [reflexivity |].
  all: first
    [ exists nil; eexists; eexists; split;
      [reflexivity | repeat split; reflexivity]
    | eexists (_ :: nil); eexists; eexists; split;
      [reflexivity | repeat split; reflexivity] ].
Qed.

Lemma quarantine_attempts_both_sub_actions_witness :
  mode enforce_linux <> "monitor" /\
  fst (_suspend_process failing_host (Some 5678%Z) "Quarantine: audit" enforce_linux)
  = Ok false /\
  history (snd (execute_action failing_host (Some 5678%Z) QUARANTINE "audit"
                  enforce_linux))
  = [ Invoked QUARANTINE (Some 5678%Z); Invoked SUSPEND (Some 5678%Z);
      Ran ["kill"; "-STOP"; "5678"]; Invoked BLOCK_NETWORK (Some 5678%Z) ].
Proof.
  assert (Hmode : mode enforce_linux <> "monitor") by discriminate.
  split; [exact Hmode |]. split; [reflexivity |].
  exact (proj1 (quarantine_attempts_both_sub_actions
                  failing_host enforce_linux (Some 5678%Z) "audit" Hmode)).
Defined.

End enforcement_facts.

(** * Further properties of the risk analyzer *)

Module risk_analyzer_extra.
Import Py risk_analyzer risk_analyzer_spec risk_analyzer_facts.
Local Open Scope Q_scope.

(** *** Ranges of the severities and of the score *)

Lemma min_le_r (a b : Q) : min a b <= b.
Proof. destruct (min_cases a b) as [[H ->] | [H ->]]; lra. Qed.

Lemma min_mono (a x y : Q) : x <= y -> min a x <= min a y.
Proof.
  intros H.
  destruct (min_cases a x) as [[H1 ->] | [H1 ->]];
    destruct (min_cases a y) as [[H2 ->] | [H2 ->]]; lra.
Qed.

(** Every entry of the breakdown is named after one of the six factors,
    in the order of [risk_factors], and its severity lies in [[0,100]]. *)
Theorem breakdown_in_range pd profile :
  map fst (snd (calculate_risk_score pd profile)) = map fst risk_factors /\
  Forall (fun kv => 0 <= snd kv <= 100) (snd (calculate_risk_score pd profile)).
Proof.
  split; [reflexivity |].
  unfold calculate_risk_score. cbn [snd].
  repeat constructor; cbn [snd].
  all: first [ apply permission_abuse_range | apply hidden_execution_range
             | apply network_anomalies_range | apply persistence_range
             | apply resource_usage_range | apply masquerading_range ].
Qed.

(** The final [min(100.0, max(0.0, total_score))] never cuts anything
    off: the score is the weighted sum of the six severities itself. *)
Theorem score_is_weighted_sum pd profile :
  fst (calculate_risk_score pd profile)
  == 0.25 * _analyze_permission_abuse pd profile
     + 0.20 * _analyze_hidden_execution pd
     + 0.20 * _analyze_network_anomalies pd
     + 0.15 * _analyze_persistence pd
     + 0.10 * _analyze_resource_usage pd
     + 0.10 * _analyze_masquerading pd.
Proof.
  unfold calculate_risk_score. cbn [fst].
  rewrite final_score_clamp.
  cbn [risk_factors getitem String.eqb Ascii.eqb Bool.eqb].
  pose proof (permission_abuse_range pd profile).
  pose proof (hidden_execution_range pd).
  pose proof (network_anomalies_range pd).
  pose proof (persistence_range pd).
  pose proof (resource_usage_range pd).
  pose proof (masquerading_range pd).
  rewrite clamp_id by lra. ring.
Qed.

(** The same equation, for the proofs below. *)
Lemma score_unfold pd profile :
  fst (calculate_risk_score pd profile)
  == 0.25 * _analyze_permission_abuse pd profile
     + 0.20 * _analyze_hidden_execution pd
     + 0.20 * _analyze_network_anomalies pd
     + 0.15 * _analyze_persistence pd
     + 0.10 * _analyze_resource_usage pd
     + 0.10 * _analyze_masquerading pd.
Proof.
  unfold calculate_risk_score. cbn [fst].
  rewrite final_score_clamp.
  cbn [risk_factors getitem String.eqb Ascii.eqb Bool.eqb].
  pose proof (permission_abuse_range pd profile).
  pose proof (hidden_execution_range pd).
  pose proof (network_anomalies_range pd).
  pose proof (persistence_range pd).
  pose proof (resource_usage_range pd).
  pose proof (masquerading_range pd).
  rewrite clamp_id by lra. ring.
Qed.

(** Upper bounds of the five severities that cannot reach 100. *)
Lemma permission_abuse_le pd profile : _analyze_permission_abuse pd profile <= 35.
Proof.
  unfold _analyze_permission_abuse.
  eapply Qle_trans; [apply min_le_r |].
  destruct profile; split_ifs; lra.
Qed.

Lemma network_anomalies_le pd : _analyze_network_anomalies pd <= 70.
Proof.
  unfold _analyze_network_anomalies.
  eapply Qle_trans; [apply min_le_r |]. split_ifs; lra.
Qed.

Lemma persistence_le pd : _analyze_persistence pd <= 40.
Proof.
  unfold _analyze_persistence.
  eapply Qle_trans; [apply min_le_r |]. split_ifs; lra.
Qed.

Lemma resource_usage_le pd : _analyze_resource_usage pd <= 60.
Proof.
  unfold _analyze_resource_usage.
  eapply Qle_trans; [apply min_le_r |]. split_ifs; lra.
Qed.

Lemma masquerading_le pd : _analyze_masquerading pd <= 75.
Proof.
  unfold _analyze_masquerading.
  eapply Qle_trans; [apply min_le_r |]. split_ifs; lra.
Qed.

Lemma score_le pd profile : fst (calculate_risk_score pd profile) <= 62.25.
Proof.
  rewrite score_unfold.
  pose proof (permission_abuse_le pd profile).
  pose proof (hidden_execution_range pd).
  pose proof (network_anomalies_le pd).
  pose proof (persistence_le pd).
  pose proof (resource_usage_le pd).
  pose proof (masquerading_le pd).
  lra.
Qed.

(** No snapshot scores above 62.25, and none above 53.5 without a
    profile; both bounds are reached.  So no computed score lies in the
    ranges of [CRITICAL] or of the upper part of [HIGH_RISK]. *)
Theorem score_upper_bound :
  (forall pd profile, fst (calculate_risk_score pd profile) <= 62.25) /\
  (forall pd, fst (calculate_risk_score pd None) <= 53.5) /\
  fst (calculate_risk_score worst_snapshot (Some worst_profile)) == 62.25 /\
  fst (calculate_risk_score worst_snapshot None) == 53.5.
Proof.
  split; [exact score_le |]. split.
  - intros pd. rewrite score_unfold.
    assert (E : _analyze_permission_abuse pd None == 0)
      by (unfold _analyze_permission_abuse; vm_compute; reflexivity).
    rewrite E.
    pose proof (hidden_execution_range pd).
    pose proof (network_anomalies_le pd).
    pose proof (persistence_le pd).
    pose proof (resource_usage_le pd).
    pose proof (masquerading_le pd).
    lra.
  - split; vm_compute; reflexivity.
Qed.

(** Supplying a profile never lowers the score and raises it by at most
    8.75, the weight 0.25 on a permission-abuse severity of at most 35. *)
Theorem profile_effect pd profile :
  fst (calculate_risk_score pd None)
  <= fst (calculate_risk_score pd (Some profile))
  <= fst (calculate_risk_score pd None) + 8.75.
Proof.
  rewrite !score_unfold.
  assert (E : _analyze_permission_abuse pd None == 0)
    by (unfold _analyze_permission_abuse; vm_compute; reflexivity).
  rewrite E.
  pose proof (permission_abuse_range pd (Some profile)).
  pose proof (permission_abuse_le pd (Some profile)).
  lra.
Qed.

(** *** Classification of any score *)

(** [get_risk_level] on every rational score: [SAFE], [SUSPICIOUS] and
    [HIGH_RISK] are returned exactly on their closed ranges, and
    [CRITICAL] on everything else - its own range, the three gaps between
    the ranges, negative scores and scores above 100. *)
Theorem get_risk_level_cases (risk_score : Q) :
  (get_risk_level risk_score = SAFE <-> 0 <= risk_score <= 30) /\
  (get_risk_level risk_score = SUSPICIOUS <-> 31 <= risk_score <= 60) /\
  (get_risk_level risk_score = HIGH_RISK <-> 61 <= risk_score <= 80) /\
  (get_risk_level risk_score = CRITICAL <->
   ~ 0 <= risk_score <= 30 /\ ~ 31 <= risk_score <= 60 /\
   ~ 61 <= risk_score <= 80).
Proof.
  unfold get_risk_level, RiskLevel_members, get_risk_level_loop, in_range,
    value, of_int, inject_Z.
  repeat match goal with
         | |- context [Qleb ?a ?b] =>
             let E := fresh "E" in
             destruct (Qleb a b) eqn:E;
             [apply Qleb_le in E | apply Qleb_gt in E]
         end; cbn [andb].
  all: repeat split; intros; try discriminate; try reflexivity; try lra.
  all: try match goal with
           | |- ~ _ => intros [? ?]; lra
           | H : _ /\ _ /\ _ |- _ =>
               destruct H as (H1 & H2 & H3); exfalso;
               first [ apply H1; split; lra | apply H2; split; lra
                     | apply H3; split; lra ]
           end.
Qed.

Lemma get_risk_level_cases_witness :
  (~ 0 <= -1 <= 30 /\ ~ 31 <= -1 <= 60 /\ ~ 61 <= -1 <= 80) /\
  get_risk_level (-1) = CRITICAL.
Proof.
  assert (H : ~ 0 <= -1 <= 30 /\ ~ 31 <= -1 <= 60 /\ ~ 61 <= -1 <= 80).
  { repeat split; intros [H0 _]; vm_compute in H0; apply H0; reflexivity. }
  split; [exact H |].
  exact (proj2 (proj2 (proj2 (proj2 (get_risk_level_cases (-1))))) H).
Defined.

(** *** Larger load figures never lower a severity *)

Ltac split_ltb :=
  repeat match goal with
         | |- context [Z.ltb ?x ?y] => destruct (Z.ltb_spec x y)
         | |- context [Qltb ?x ?y] =>
             let E := fresh "E" in
             destruct (Qltb x y) eqn:E;
             [apply Qltb_lt in E | apply Qltb_ge in E]
         end.

Ltac by_order := first [lra | exfalso; lia | exfalso; lra].

Lemma permission_abuse_mono a b profile :
  busier a b ->
  _analyze_permission_abuse a profile <= _analyze_permission_abuse b profile.
Proof.
  intros (_ & _ & _ & _ & _ & _ & _ & _ & Hc & Hf).
  unfold _analyze_permission_abuse. apply min_mono.
  destruct profile as [profile |]; [| lra].
  revert Hc Hf.
  generalize (get (connections a) 0%Z) (get (connections b) 0%Z)
             (get (open_files a) 0%Z) (get (open_files b) 0%Z)
             (count (app_name profile) ".").
  intros ca cb fa fb dots Hc Hf. split_ltb; by_order.
Qed.

Lemma hidden_execution_mono a b :
  busier a b -> _analyze_hidden_execution a <= _analyze_hidden_execution b.
Proof.
  intros (Hn & _ & Hl & _ & _ & _ & _ & Ht & _).
  unfold _analyze_hidden_execution. rewrite Hn, Hl. apply min_mono.
  cbn [fold_left suspicious_names]. unfold of_int, inject_Z.
  revert Ht.
  generalize (get (num_threads a) 1%Z) (get (num_threads b) 1%Z).
  intros ta tb Ht. split_ltb; split_ifs; by_order.
Qed.

Lemma network_anomalies_mono a b :
  busier a b -> _analyze_network_anomalies a <= _analyze_network_anomalies b.
Proof.
  intros (Hn & _ & _ & _ & _ & _ & _ & _ & Hc & _).
  unfold _analyze_network_anomalies. rewrite Hn. apply min_mono.
  revert Hc.
  generalize (get (connections a) 0%Z) (get (connections b) 0%Z).
  intros ca cb Hc. split_ltb; split_ifs; by_order.
Qed.

Lemma resource_usage_mono a b :
  busier a b -> _analyze_resource_usage a <= _analyze_resource_usage b.
Proof.
  intros (_ & _ & _ & _ & _ & Hcpu & Hmem & _).
  unfold _analyze_resource_usage. apply min_mono.
  revert Hcpu Hmem.
  generalize (get (cpu_percent a) 0.0) (get (cpu_percent b) 0.0)
             (get (mem_percent a) 0.0) (get (mem_percent b) 0.0).
  intros ca cb ma mb Hcpu Hmem. split_ltb; by_order.
Qed.

Lemma persistence_same a b :
  busier a b -> _analyze_persistence a = _analyze_persistence b.
Proof.
  intros (Hn & _ & _ & Hu & Ht & _).
  unfold _analyze_persistence. now rewrite Hn, Hu, Ht.
Qed.

Lemma masquerading_same a b :
  busier a b -> _analyze_masquerading a = _analyze_masquerading b.
Proof.
  intros (Hn & He & _).
  unfold _analyze_masquerading. now rewrite Hn, He.
Qed.

(** A snapshot that differs from another only by larger load figures
    (cpu and memory percentages, threads, connections, open files) never
    gets a lower score, with or without a profile. *)
Theorem score_monotone_in_load a b profile :
  busier a b ->
  fst (calculate_risk_score a profile) <= fst (calculate_risk_score b profile).
Proof.
  intros H. rewrite !score_unfold.
  pose proof (permission_abuse_mono a b profile H).
  pose proof (hidden_execution_mono a b H).
  pose proof (network_anomalies_mono a b H).
  pose proof (resource_usage_mono a b H).
  rewrite (persistence_same a b H), (masquerading_same a b H).
  lra.
Qed.

Lemma score_monotone_in_load_witness :
  busier calm_process suspicious_process /\
  fst (calculate_risk_score calm_process None)
  <= fst (calculate_risk_score suspicious_process None).
Proof.
  assert (H : busier calm_process suspicious_process).
  { unfold busier. repeat split; try reflexivity; vm_compute; discriminate. }
  split; [exact H |].
  exact (score_monotone_in_load calm_process suspicious_process None H).
Defined.

(** *** The alert message *)

Local Open Scope string_scope.

Lemma prefix_app_cong (a x y : string) :
  String.prefix (a ++ x) (a ++ y) = String.prefix x y.
Proof.
  induction a as [| c a IH]; cbn; [reflexivity |].
  destruct (ascii_dec c c); [exact IH | congruence].
Qed.

Lemma prefix_app (s t : string) : String.prefix s (s ++ t) = true.
Proof.
  induction s as [| c s IH]; cbn; [destruct t; reflexivity |].
  destruct (ascii_dec c c); [exact IH | congruence].
Qed.

Lemma contains_of_prefix (sub s : string) :
  String.prefix sub s = true -> contains sub s = true.
Proof.
  intros H. destruct s; cbn [contains]; rewrite H; reflexivity.
Qed.

Lemma contains_here (sub t : string) : contains sub (sub ++ t) = true.
Proof. apply contains_of_prefix, prefix_app. Qed.

Lemma contains_app_r (sub a t : string) :
  contains sub t = true -> contains sub (a ++ t) = true.
Proof.
  intros H. induction a as [| c a IH]; cbn; [exact H |].
  rewrite IH. apply Bool.orb_true_r.
Qed.

Lemma endswith_self (s : string) : endswith s s = true.
Proof.
  destruct s; cbn; [reflexivity |].
  rewrite Ascii.eqb_refl, String.eqb_refl. reflexivity.
Qed.

Lemma endswith_app_r (a t s : string) :
  endswith t s = true -> endswith (a ++ t) s = true.
Proof.
  intros H. induction a as [| c a IH]; cbn; [exact H |].
  rewrite IH. apply Bool.orb_true_r.
Qed.

Local Close Scope string_scope.

(** [max_item] returns the first item of the greatest value: what comes
    before it is strictly smaller, what comes after is no greater. *)
Lemma max_item_first (items before after : list (string * Q)) (best : string * Q) :
  Forall (fun kv => snd kv < snd best) before ->
  Forall (fun kv => snd kv <= snd best) after ->
  exists l1 l2,
    (before ++ best :: after ++ items = l1 ++ max_item best items :: l2)%list /\
    Forall (fun kv => snd kv < snd (max_item best items)) l1 /\
    Forall (fun kv => snd kv <= snd (max_item best items)) l2.
Proof.
  revert before after best.
  induction items as [| x items IH]; intros before after best Hb Ha.
  - exists before, after. rewrite app_nil_r. auto.
  - cbn [max_item]. unfold float in *.
    match goal with
    | |- context [Qltb ?u ?v] => destruct (Qltb u v) eqn:E
    end.
    + apply Qltb_lt in E.
      destruct (IH (before ++ best :: after)%list [] x) as (l1 & l2 & Heq & H1 & H2).
      * apply Forall_app. split.
        -- eapply Forall_impl; [| exact Hb]. cbn. intros kv Hkv. lra.
        -- constructor; [exact E |].
           eapply Forall_impl; [| exact Ha]. cbn. intros kv Hkv. lra.
      * constructor.
      * exists l1, l2. split; [| auto].
        rewrite <- Heq. cbn [app]. rewrite <- app_assoc. reflexivity.
    + apply Qltb_ge in E.
      destruct (IH before (after ++ [x])%list best Hb) as (l1 & l2 & Heq & H1 & H2).
      * apply Forall_app. split; [exact Ha |]. constructor; [exact E | constructor].
      * exists l1, l2. split; [| auto].
        rewrite <- Heq. rewrite <- app_assoc. reflexivity.
Qed.

(** [generate_alert_message] fails exactly on an empty breakdown ([max]
    of nothing).  Otherwise the message ends with the name of the first
    factor of greatest severity, and carries the process name (or
    "Unknown"), the pid, the name of the level and the rounded score. *)
Theorem alert_message_content pd (risk_score : Q) (factors : list (string * Q)) :
  (generate_alert_message pd risk_score factors = None <-> factors = []) /\
  (forall msg,
      generate_alert_message pd risk_score factors = Some msg ->
      exists l1 top l2,
        factors = (l1 ++ top :: l2)%list /\
        Forall (fun kv => snd kv < snd top) l1 /\
        Forall (fun kv => snd kv <= snd top) l2 /\
        endswith msg ("Primary concern: " ++ fst top)%string = true /\
        contains (get (name pd) "Unknown"%string) msg = true /\
        contains ("Risk Level: " ++ level_name (get_risk_level risk_score)
                  ++ " (" ++ format_0f risk_score ++ "/100)")%string msg = true).
Proof.
  unfold generate_alert_message, top_factor.
  destruct factors as [| x items]; split.
  - tauto.
  - discriminate.
  - split; discriminate.
  - intros msg H.
    apply (f_equal (fun o => match o with Some m => m | None => msg end)) in H.
    cbv beta iota in H. subst msg.
    destruct (max_item_first items [] [] x) as (l1 & l2 & Heq & H1 & H2);
      [constructor | constructor |].
    exists l1, (max_item x items), l2. cbn [app] in Heq.
    split; [exact Heq |]. split; [exact H1 |]. split; [exact H2 |].
    generalize (max_item x items). intros top.
    split; [| split].
    + do 10 apply endswith_app_r. apply endswith_self.
    + apply contains_app_r, contains_here.
    + do 5 apply contains_app_r. apply contains_of_prefix.
      rewrite !prefix_app_cong. reflexivity.
Qed.

Lemma alert_message_content_witness :
  generate_alert_message malware_process 75 malware_factors
  = Some "⚠️ ALERT: malware.exe (PID 9999) - Risk Level: HIGH_RISK (75/100) | Primary concern: permission_abuse"%string /\
  contains "malware.exe"
    "⚠️ ALERT: malware.exe (PID 9999) - Risk Level: HIGH_RISK (75/100) | Primary concern: permission_abuse"
  = true.
Proof.
  split; [reflexivity |].
  destruct (proj2 (alert_message_content malware_process 75 malware_factors)
              _ eq_refl) as (l1 & top & l2 & _ & _ & _ & _ & H & _).
  exact H.
Defined.

(** *** Permission profiles *)

Lemma dict_get_set {A} (d : list (string * A)) (k k' : string) (v : A) :
  dict_get (dict_set d k v) k' = if String.eqb k k' then Some v else dict_get d k'.
Proof.
  induction d as [| [k0 x] d IH]; cbn.
  - reflexivity.
  - destruct (String.eqb_spec k0 k) as [-> | Hk0]; cbn.
    + destruct (String.eqb k k'); reflexivity.
    + rewrite IH.
      destruct (String.eqb_spec k0 k') as [-> | Hk']; [| reflexivity].
      destruct (String.eqb_spec k k') as [-> | _]; [contradiction | reflexivity].
Qed.

Lemma log_access_count (self : PermissionProfile) (p q : string) :
  access_count (log_access self p) q
  = (access_count self q + if String.eqb p q then 1 else 0)%Z.
Proof.
  unfold access_count, log_access. cbn [access_history].
  rewrite dict_get_set.
  destruct (String.eqb_spec p q) as [-> | _]; cbn [get]; lia.
Qed.

(** After any run of [log_access] calls the count of a permission has
    grown by the number of times it was logged, the other counts are as
    they were, and the name and the declared permissions are untouched. *)
Theorem log_access_counts (self : PermissionProfile)
    (permissions : list string) (permission : string) :
  access_count (log_accesses self permissions) permission
  = (access_count self permission
     + Z.of_nat (count_occ string_dec permissions permission))%Z /\
  app_name (log_accesses self permissions) = app_name self /\
  declared_permissions (log_accesses self permissions) = declared_permissions self.
Proof.
  unfold log_accesses. revert self.
  induction permissions as [| p ps IH]; intros self; cbn [fold_left count_occ].
  - repeat split. lia.
  - destruct (IH (log_access self p)) as (Hc & Hn & Hd).
    rewrite Hc, Hn, Hd, log_access_count. repeat split.
    destruct (string_dec p permission) as [-> | Hne].
    + rewrite String.eqb_refl. lia.
    + apply String.eqb_neq in Hne. rewrite Hne. lia.
Qed.

(** *** Old creation times *)

Lemma persistence_old_nonzero_witness :
  ~ 1 == 0 /\ 1 < 1e9 /\
  _analyze_persistence (with_create_time empty_snapshot (Some 1))
  == _analyze_persistence (with_create_time empty_snapshot None) + 15.
Proof.
  assert (H1 : ~ 1 == 0) by discriminate.
  assert (H2 : 1 < 1e9) by reflexivity.
  split; [exact H1 |]. split; [exact H2 |].
  exact (persistence_old_nonzero empty_snapshot 1 H1 H2).
Defined.

End risk_analyzer_extra.

(** * Further properties of the enforcement controller *)

Module enforcement_extra.
Import Py enforcement enforcement_spec.
Import risk_analyzer_facts enforcement_facts.
Local Open Scope Q_scope.

(** *** Policy selection *)

Lemma first_match_reached (l : list PolicyRule) (s : float_nan) (p : PolicyRule) :
  first_match l s = Some p -> float_ge s (trigger_risk_score p) = true.
Proof.
  induction l as [| p0 l IH]; cbn [first_match]; [discriminate |].
  destruct (float_ge s (trigger_risk_score p0)) eqn:E; [| exact IH].
  intros H. injection H as H. subst p. exact E.
Qed.

(** A scan in any fixed order is monotone in the score. *)
Lemma first_match_monotone (l : list PolicyRule) (s1 s2 : Q) (p1 : PolicyRule) :
  s1 <= s2 ->
  first_match l s1 = Some p1 ->
  exists p2, first_match l s2 = Some p2 /\
             float_ge (trigger_risk_score p2) (trigger_risk_score p1) = true.
Proof.
  intros Hs. induction l as [| p0 l IH]; cbn [first_match]; [discriminate |].
  destruct (float_ge s1 (trigger_risk_score p0)) eqn:E1.
  - intros H. injection H as H. subst p1.
    assert (E2 : float_ge s2 (trigger_risk_score p0) = true)
      by (clear IH; keys).
    rewrite E2. exists p0. split; [reflexivity |]. clear IH. keys.
  - intros H1.
    destruct (float_ge s2 (trigger_risk_score p0)) eqn:E2.
    + exists p0. split; [reflexivity |].
      apply first_match_reached in H1. clear IH. keys.
    + now apply IH.
Qed.

(** Selection is monotone: for a fixed table, a score that selects a
    rule keeps selecting one when it is raised, and never one of a lower
    threshold. *)
Theorem applied_policy_monotone (l : list PolicyRule) (s1 s2 : Q) (p1 : PolicyRule) :
  s1 <= s2 ->
  applied_policy l s1 = Some p1 ->
  exists p2, applied_policy l s2 = Some p2 /\
             float_ge (trigger_risk_score p2) (trigger_risk_score p1) = true.
Proof.
  unfold applied_policy. apply first_match_monotone.
Qed.

Lemma applied_policy_monotone_witness :
  55 <= 90 /\
  applied_policy _init_default_policies 55 = Some suspicious_rule /\
  exists p2, applied_policy _init_default_policies 90 = Some p2 /\
             float_ge (trigger_risk_score p2) (trigger_risk_score suspicious_rule)
             = true.
Proof.
  assert (H : 55 <= 90) by (vm_compute; discriminate).
  split; [exact H |]. split; [reflexivity |].
  exact (applied_policy_monotone _init_default_policies 55 90 suspicious_rule
           H eq_refl).
Defined.

(** On a table without NaN thresholds, the order in which the rules are
    declared does not change the threshold that is selected. *)
Theorem applied_policy_permutation (l l' : list PolicyRule) (risk_score : float_nan) :
  numeric l ->
  Permutation l l' ->
  match applied_policy l risk_score, applied_policy l' risk_score with
  | Some p, Some p' =>
      float_ge (trigger_risk_score p) (trigger_risk_score p') = true /\
      float_ge (trigger_risk_score p') (trigger_risk_score p) = true
  | None, None => True
  | _, _ => False
  end.
Proof.
  intros Hnum HP.
  assert (Hnum' : numeric l') by (unfold numeric; now rewrite <- HP).
  pose proof (applied_policy_max l risk_score Hnum) as M.
  pose proof (applied_policy_max l' risk_score Hnum') as M'.
  destruct (applied_policy l risk_score) as [p |],
           (applied_policy l' risk_score) as [p' |].
  - destruct M as (Hin & Hle & Hmax), M' as (Hin' & Hle' & Hmax').
    split.
    + apply Hmax; [| exact Hle'].
      eapply Permutation_in; [apply Permutation_sym |]; eassumption.
    + apply Hmax'; [eapply Permutation_in; eassumption | exact Hle].
  - destruct M as (Hin & Hle & _).
    specialize (M' p (Permutation_in _ HP Hin)). congruence.
  - destruct M' as (Hin' & Hle' & _).
    specialize (M p' (Permutation_in _ (Permutation_sym HP) Hin')). congruence.
  - exact I.
Qed.

Lemma applied_policy_permutation_witness :
  numeric _init_default_policies /\
  Permutation _init_default_policies (rev _init_default_policies) /\
  match applied_policy _init_default_policies 75,
        applied_policy (rev _init_default_policies) 75 with
  | Some p, Some p' =>
      float_ge (trigger_risk_score p) (trigger_risk_score p') = true /\
      float_ge (trigger_risk_score p') (trigger_risk_score p) = true
  | None, None => True
  | _, _ => False
  end.
Proof.
  assert (Hnum : numeric _init_default_policies) by (repeat constructor).
  assert (H : Permutation _init_default_policies (rev _init_default_policies))
    by apply Permutation_rev.
  split; [exact Hnum |]. split; [exact H |].
  exact (applied_policy_permutation _ _ 75 Hnum H).
Defined.

(** *** What the methods keep *)

Ltac run_all :=
  cbv beta iota zeta delta
    [resume_process evaluate_and_enforce execute_action _quarantine_process
     _terminate_process _suspend_process _block_network subprocess_run
     _log_action record_event bind try_except read ret fst snd];
  repeat progress cbn [mode system execution_log policies history clock_reads].

Ltac step_all :=
  run_all;
  match goal with
  | |- context [applied_policy ?l ?s] =>
      destruct (applied_policy l s) as [? |] eqn:?
  | |- context [String.eqb (mode ?s) "monitor"] =>
      destruct (String.eqb (mode s) "monitor") eqn:?
  | |- context [String.eqb (system ?s) ?os] =>
      destruct (String.eqb (system s) os) eqn:?
  | |- context [action ?p] => destruct (action p) eqn:?
  | |- context [run_outcome ?h ?argv] =>
      destruct (run_outcome h argv) as [? | ?] eqn:?
  | |- context [Z.eqb ?r 0] => destruct (Z.eqb r 0) eqn:?
  end.

(** The same on a controller given field by field. *)
Ltac run_flat :=
  cbv beta iota zeta delta
    [resume_process evaluate_and_enforce execute_action _quarantine_process
     _terminate_process _suspend_process _block_network subprocess_run
     _log_action record_event bind try_except read ret fst snd
     mode system execution_log policies history clock_reads].

Ltac step_flat :=
  run_flat;
  match goal with
  | H : String.eqb ?x ?y = _ |- context [String.eqb ?x ?y] => rewrite H
  | |- context [applied_policy ?l ?s] =>
      destruct (applied_policy l s) as [? |] eqn:?
  | |- context [String.eqb ?x ?y] => destruct (String.eqb x y) eqn:?
  | |- context [action ?p] => destruct (action p) eqn:?
  | |- context [run_outcome ?h ?argv] =>
      destruct (run_outcome h argv) as [? | ?] eqn:?
  | |- context [Z.eqb ?r 0] => destruct (Z.eqb r 0) eqn:?
  end.

Ltac kept :=
  unfold well_behaved; run_all;
  split; [eexists; reflexivity |];
  split; [reflexivity |]; split; [reflexivity |]; split; [reflexivity |];
  split; repeat rewrite <- app_assoc;
  first [ eexists; reflexivity | exists []; rewrite app_nil_r; reflexivity ].

(** Whatever the host does - also when [subprocess.run] raises - the
    three public methods return normally, leave mode, platform and rule
    table unchanged, and only append to the execution log. *)
Theorem methods_well_behaved host (self : EnforcementController) :
  (forall process_data risk_score,
      well_behaved self (evaluate_and_enforce host process_data risk_score self)) /\
  (forall process_id action reason,
      well_behaved self (execute_action host process_id action reason self)) /\
  (forall process_id,
      well_behaved self (resume_process host process_id self)).
Proof.
  split; [| split].
  - intros process_data risk_score. repeat step_all; kept.
  - intros process_id a reason. destruct a; repeat step_all; kept.
  - intros process_id. repeat step_all; kept.
Qed.

(** *** What a reported action means *)

(** When [evaluate_and_enforce] reports an action, the controller is not
    in Monitor mode, the action is that of the selected rule and one of
    the four that have a method, and the last record of the execution
    log is its success record, for this pid and with the rule's name and
    description as the reason. *)
Theorem reported_action_is_audited
    host (self : EnforcementController) process_data risk_score a :
  fst (evaluate_and_enforce host process_data risk_score self) = Ok (Some a) ->
  mode self <> "monitor" /\
  supported a = true /\
  exists p,
    applied_policy (policies self) risk_score = Some p /\
    action p = a /\
    exists earlier e,
      execution_log (snd (evaluate_and_enforce host process_data risk_score self))
      = (execution_log self ++ earlier ++ [e])%list /\
      entry_action e = value a /\
      entry_process_id e = risk_analyzer.pid process_data /\
      entry_reason e = (name p ++ ": " ++ description p)%string /\
      entry_success e = true /\
      entry_error e = None.
Proof.
  repeat step_all; run_all; intros H; try discriminate H.
  all: injection H as <-.
  all: split; [now apply String.eqb_neq |].
  all: split; [reflexivity |].
  all: eexists; split; [reflexivity |]; split; [eassumption |].
  all: repeat rewrite <- app_assoc.
  all: first
    [ exists nil; eexists; split; [reflexivity | repeat split; reflexivity]
    | eexists (_ :: nil); eexists; split;
      [reflexivity | repeat split; reflexivity]
    | eexists (_ :: _ :: nil); eexists; split;
      [reflexivity | repeat split; reflexivity] ].
Qed.

Lemma reported_action_is_audited_witness :
  fst (evaluate_and_enforce obliging_host some_process 55 enforce_linux)
  = Ok (Some SUSPEND) /\
  mode enforce_linux <> "monitor" /\ supported SUSPEND = true.
Proof.
  assert (H : fst (evaluate_and_enforce obliging_host some_process 55 enforce_linux)
              = Ok (Some SUSPEND)) by reflexivity.
  split; [exact H |].
  destruct (reported_action_is_audited obliging_host enforce_linux some_process
              55 SUSPEND H) as (Hm & Hs & _).
  split; [exact Hm | exact Hs].
Defined.

(** A rule whose action is RevokePermissions or Whitelist is selected
    like any other, but nothing is done for it in any mode: no method is
    entered, no command run, no record written, and the call reports no
    action. *)
Theorem unsupported_action_does_nothing
    host (self : EnforcementController) (a : EnforcementAction) :
  supported a = false ->
  (forall process_id reason,
      execute_action host process_id a reason self = (Ok false, self)) /\
  (forall process_data risk_score p,
      applied_policy (policies self) risk_score = Some p ->
      action p = a ->
      evaluate_and_enforce host process_data risk_score self = (Ok None, self)).
Proof.
  intros Ha. split.
  - intros process_id reason.
    destruct a; try discriminate Ha; repeat step_all; run_all; reflexivity.
  - intros process_data risk_score p Hp Hact.
    run_all. rewrite Hp, Hact.
    destruct a; try discriminate Ha; repeat step_all; run_all; reflexivity.
Qed.

Lemma unsupported_action_does_nothing_witness :
  supported WHITELIST = false /\
  applied_policy (policies whitelisting_linux) 95 = Some whitelist_rule /\
  evaluate_and_enforce failing_host some_process 95 whitelisting_linux
  = (Ok None, whitelisting_linux).
Proof.
  split; [reflexivity |]. split; [reflexivity |].
  exact (proj2 (unsupported_action_does_nothing failing_host whitelisting_linux
                  WHITELIST eq_refl)
           some_process 95 whitelist_rule eq_refl eq_refl).
Defined.

(** *** The commands that are run *)

(** One call of [evaluate_and_enforce] runs at most one command, and
    only one of three: [taskkill /PID pid /F] on Windows, [kill -9 pid]
    or [kill -STOP pid] elsewhere, with the pid of the snapshot written
    by [str] - the text "None" when the snapshot has no pid. *)
Theorem commands_of_evaluate_and_enforce
    host (self : EnforcementController) process_data risk_score :
  exists events,
    history (snd (evaluate_and_enforce host process_data risk_score self))
    = (history self ++ events)%list /\
    (commands events = []
     \/ (system self = "Windows" /\
         commands events
         = [["taskkill"; "/PID"; str (risk_analyzer.pid process_data); "/F"]])
     \/ (system self <> "Windows" /\
         (commands events = [["kill"; "-9"; str (risk_analyzer.pid process_data)]]
          \/ commands events
             = [["kill"; "-STOP"; str (risk_analyzer.pid process_data)]]))).
Proof.
  repeat step_all; run_all.
  all: repeat rewrite <- app_assoc.
  all: first [ eexists; split; [reflexivity |]
             | exists nil; split; [now rewrite app_nil_r |] ].
  all: cbn [app commands].
  all: first
    [ left; reflexivity
    | right; left; split; [now apply String.eqb_eq | reflexivity]
    | right; right; split; [now apply String.eqb_neq |];
      first [left; reflexivity | right; reflexivity] ].
Qed.

(** *** Resuming *)

(** [resume_process] does not look at the mode.  On Linux it runs
    [kill -CONT pid] and succeeds exactly when that exits with status 0;
    on any other platform it runs nothing and succeeds.  A success adds
    one "resume" record with the reason "User action"; a failure - a
    non-zero status or an error raised - returns [False] and leaves the
    execution log as it was. *)
Theorem resume_process_outcome host (self : EnforcementController) process_id :
  let outcome := resume_process host process_id self in
  (system self = "Linux" ->
   history (snd outcome)
   = (history self ++ [Ran ["kill"; "-CONT"; str process_id]])%list /\
   (fst outcome = Ok true <->
    run_outcome host ["kill"; "-CONT"; str process_id] = Returned 0)) /\
  (system self <> "Linux" ->
   history (snd outcome) = history self /\ fst outcome = Ok true) /\
  (fst outcome = Ok true ->
   exists e,
     execution_log (snd outcome) = (execution_log self ++ [e])%list /\
     entry_action e = "resume" /\
     entry_process_id e = process_id /\
     entry_reason e = "User action" /\
     entry_success e = true) /\
  (fst outcome <> Ok true ->
   fst outcome = Ok false /\
   execution_log (snd outcome) = execution_log self).
Proof.
  cbv zeta. repeat step_all; run_all.
  all: repeat match goal with
              | H : String.eqb _ _ = true |- _ => apply String.eqb_eq in H
              | H : String.eqb _ _ = false |- _ => apply String.eqb_neq in H
              | H : Z.eqb _ _ = true |- _ => apply Z.eqb_eq in H; subst
              | H : Z.eqb _ _ = false |- _ => apply Z.eqb_neq in H
              end.
  all: repeat split; intros; try reflexivity; try congruence.
  all: try (eexists; repeat split; reflexivity).
Qed.

Lemma resume_process_outcome_witness :
  system monitor_linux = "Linux" /\
  history (snd (resume_process obliging_host (Some 5678%Z) monitor_linux))
  = [Ran ["kill"; "-CONT"; "5678"]].
Proof.
  split; [reflexivity |].
  exact (proj1 (proj1 (resume_process_outcome obliging_host monitor_linux
                         (Some 5678%Z)) eq_refl)).
Defined.

(** Suspending and then resuming, outside Monitor mode: on Linux the
    commands run are [kill -STOP pid] then [kill -CONT pid]; on Windows
    none; on any other platform [kill -STOP pid] alone, and the resume
    still reports success. *)
Theorem suspend_then_resume
    host (self : EnforcementController) process_id reason :
  mode self <> "monitor" ->
  let suspended := snd (execute_action host process_id SUSPEND reason self) in
  let outcome := resume_process host process_id suspended in
  exists events,
    history (snd outcome) = (history self ++ events)%list /\
    commands events
    = (if String.eqb (system self) "Windows" then []
       else if String.eqb (system self) "Linux"
            then [["kill"; "-STOP"; str process_id];
                  ["kill"; "-CONT"; str process_id]]
            else [["kill"; "-STOP"; str process_id]]) /\
    (system self <> "Linux" -> fst outcome = Ok true).
Proof.
  intros Hmode. destruct self as [m os log table past reads].
  cbn [mode system history] in *. apply String.eqb_neq in Hmode.
  repeat step_flat; run_flat.
  all: repeat match goal with
              | H : String.eqb _ _ = true |- _ => apply String.eqb_eq in H
              | H : String.eqb _ _ = false |- _ => apply String.eqb_neq in H
              end.
  all: try congruence.
  all: repeat rewrite <- app_assoc.
  all: eexists; split; [reflexivity |]; cbn [app commands].
  all: split; [reflexivity |].
  all: intros Hne; first [reflexivity | contradiction].
Qed.

Lemma suspend_then_resume_witness :
  mode enforce_darwin <> "monitor" /\
  history (snd (resume_process obliging_host (Some 5678%Z)
                  (snd (execute_action obliging_host (Some 5678%Z) SUSPEND
                          "review" enforce_darwin))))
  = [Invoked SUSPEND (Some 5678%Z); Ran ["kill"; "-STOP"; "5678"]] /\
  fst (resume_process obliging_host (Some 5678%Z)
         (snd (execute_action obliging_host (Some 5678%Z) SUSPEND
                 "review" enforce_darwin)))
  = Ok true.
Proof.
  assert (Hmode : mode enforce_darwin <> "monitor") by discriminate.
  split; [exact Hmode |]. split; [reflexivity |].
  destruct (suspend_then_resume obliging_host enforce_darwin (Some 5678%Z)
              "review" Hmode) as (events & _ & _ & H).
  apply H. discriminate.
Defined.

(** *** Scores of the analyzer against the default table *)

Lemma default_table_below_70 (risk_score : Q) :
  risk_score < 70 ->
  applied_policy _init_default_policies risk_score
  = if Qleb 50 risk_score then Some suspicious_rule else None.
Proof.
  intros H. unfold applied_policy.
  assert (E : sorted_reverse _init_default_policies
              = [critical_rule; quarantine_rule; suspicious_rule])
    by reflexivity.
  rewrite E. cbn [first_match trigger_risk_score critical_rule quarantine_rule
                  suspicious_rule float_ge].
  destruct (Qleb 85 risk_score) eqn:E85; [apply Qleb_le in E85; lra |].
  destruct (Qleb 70 risk_score) eqn:E70; [apply Qleb_le in E70; lra |].
  reflexivity.
Qed.

(** With the default table, a score that [calculate_risk_score] computed
    never leads to Terminate or Quarantine, whatever the snapshot, the
    profile, the host and the mode: the call reports nothing or Suspend,
    and at most enters the suspend method and runs [kill -STOP pid]. *)
Theorem computed_scores_only_suspend
    host (self : EnforcementController) process_data profile :
  policies self = _init_default_policies ->
  let risk_score := fst (risk_analyzer.calculate_risk_score process_data profile) in
  let outcome := evaluate_and_enforce host process_data risk_score self in
  let process_id := risk_analyzer.pid process_data in
  (fst outcome = Ok None \/ fst outcome = Ok (Some SUSPEND)) /\
  exists events,
    history (snd outcome) = (history self ++ events)%list /\
    (events = []
     \/ events = [Invoked SUSPEND process_id]
     \/ events = [Invoked SUSPEND process_id;
                  Ran ["kill"; "-STOP"; str process_id]]).
Proof.
  intros Htable. cbv zeta.
  pose proof (risk_analyzer_extra.score_le process_data profile) as Hle.
  revert Hle.
  generalize (fst (risk_analyzer.calculate_risk_score process_data profile)).
  intros risk_score Hle.
  destruct self as [m os log table past reads]. cbn [policies history] in *.
  subst table. run_flat.
  rewrite (default_table_below_70 risk_score) by lra.
  destruct (Qleb 50 risk_score); run_flat;
    cbn [action name description suspicious_rule];
    repeat step_flat; run_flat.
  all: repeat rewrite <- app_assoc; cbn [app].
  all: split; [first [left; reflexivity | right; reflexivity] |].
  all: first
    [ exists nil; split; [now rewrite app_nil_r | left; reflexivity]
    | eexists; split; [reflexivity |];
      first [right; left; reflexivity | right; right; reflexivity] ].
Qed.

Lemma computed_scores_only_suspend_witness :
  policies enforce_linux = _init_default_policies /\
  fst (evaluate_and_enforce obliging_host risk_analyzer_spec.worst_snapshot
         (fst (risk_analyzer.calculate_risk_score
                 risk_analyzer_spec.worst_snapshot
                 (Some risk_analyzer_spec.worst_profile)))
         enforce_linux)
  = Ok (Some SUSPEND).
Proof.
  split; [reflexivity |].
  destruct (computed_scores_only_suspend obliging_host enforce_linux
              risk_analyzer_spec.worst_snapshot
              (Some risk_analyzer_spec.worst_profile) eq_refl) as [[H | H] _].
  - vm_compute in H. discriminate H.
  - exact H.
Defined.

(** *** Each evaluation starts afresh *)

(** The verdict of [evaluate_and_enforce], and what it asks of the host,
    depend on the mode, the platform and the rule table only: the
    execution log and the history of earlier calls are never consulted. *)
Theorem verdict_ignores_the_past
    host m os table process_data risk_score log1 past1 reads1 log2 past2 reads2 :
  let self1 := {| mode := m; system := os; execution_log := log1;
                  policies := table; history := past1; clock_reads := reads1 |} in
  let self2 := {| mode := m; system := os; execution_log := log2;
                  policies := table; history := past2; clock_reads := reads2 |} in
  fst (evaluate_and_enforce host process_data risk_score self1)
  = fst (evaluate_and_enforce host process_data risk_score self2) /\
  exists events,
    history (snd (evaluate_and_enforce host process_data risk_score self1))
    = (past1 ++ events)%list /\
    history (snd (evaluate_and_enforce host process_data risk_score self2))
    = (past2 ++ events)%list.
Proof.
  cbv zeta. repeat step_flat; run_flat.
  all: split; [reflexivity |].
  all: repeat rewrite <- app_assoc; cbn [app].
  all: first
    [ exists nil; split; now rewrite app_nil_r
    | eexists; split; reflexivity ].
Qed.

(** *** A failure that is reported by the exit status *)

(** Outside Monitor mode, when the command of Terminate or Suspend exits
    with a status other than 0, [evaluate_and_enforce] reports no action
    and writes no record: the execution log is as it was before. *)
Theorem failed_exit_status_leaves_no_record
    host (self : EnforcementController) process_data risk_score p returncode :
  mode self <> "monitor" ->
  applied_policy (policies self) risk_score = Some p ->
  capability host (system self) (action p) (risk_analyzer.pid process_data)
  = Some (Returned returncode) ->
  returncode <> 0%Z ->
  fst (evaluate_and_enforce host process_data risk_score self) = Ok None /\
  execution_log (snd (evaluate_and_enforce host process_data risk_score self))
  = execution_log self.
Proof.
  intros Hmode Happ. apply monitor_eqb in Hmode.
  destruct self as [m os log table past reads].
  cbn [mode system policies execution_log] in *.
  unfold capability. run_flat. rewrite Happ.
  destruct (action p); repeat step_flat; run_flat.
  all: intros Hcap Hrc; try discriminate Hcap.
  all: injection Hcap as Hcap; subst.
  all: try (exfalso; apply Hrc; reflexivity).
  all: try (exfalso; apply Hrc; now apply Z.eqb_eq).
  all: split; reflexivity.
Qed.

Lemma failed_exit_status_leaves_no_record_witness :
  mode enforce_linux <> "monitor" /\
  applied_policy (policies enforce_linux) 90 = Some critical_rule /\
  capability failing_host (system enforce_linux) (action critical_rule)
             (risk_analyzer.pid some_process) = Some (Returned 1) /\
  fst (evaluate_and_enforce failing_host some_process 90 enforce_linux) = Ok None /\
  execution_log (snd (evaluate_and_enforce failing_host some_process 90 enforce_linux))
  = [].
Proof.
  assert (Hmode : mode enforce_linux <> "monitor") by discriminate.
  assert (Hrc : 1%Z <> 0%Z) by discriminate.
  split; [exact Hmode |]. split; [reflexivity |]. split; [reflexivity |].
  exact (failed_exit_status_leaves_no_record failing_host enforce_linux
           some_process 90 critical_rule 1 Hmode eq_refl eq_refl Hrc).
Defined.

End enforcement_extra.
